(** * ws-sws: the attendance web service of [index.js]

    A shallow embedding of the Express application in [index.js]: the request
    guard [authenticateJWT], the schema [userSchema] and the nine route
    handlers, over a model of the three tables the handlers query
    ([users], [sessions], [emargement]).

    The libraries the file imports are interfaces here: zod's e-mail test,
    bcrypt, jsonwebtoken and the value conversions of the MySQL engine are
    type classes, so every statement holds for whatever these libraries
    compute.  What the handlers themselves do (which statement they issue,
    with which parameters, which status and body they answer) is written out
    from the source.

    The store follows the schema of the README, for the tables that the
    statements name: every column NOT NULL, [users.email] UNIQUE, the three
    foreign keys with ON DELETE CASCADE, ids from AUTO_INCREMENT.  A
    statement that fails changes nothing.  The [:id] segment of a path is
    taken as the integer that the store reads from it.  The [console.log]
    calls are left out. *)

From stdpp Require Import base option list strings gmap.
From Stdlib Require Import ZArith Lia Ascii String.

Open Scope string_scope.
Open Scope Z_scope.

(** ** JavaScript values *)

(** The values a JSON request body can hold in a field that the handlers read
    (the handlers never look inside arrays or nested objects). *)
Inductive JsVal :=
| JUndefined
| JNull
| JBool (b : bool)
| JNum (n : Z)
| JStr (s : string).

(** [obj.k]: reading a property of a parsed JSON object; an absent key reads
    as [undefined]. *)
Definition prop (obj : gmap string JsVal) (k : string) : JsVal :=
  default JUndefined (obj !! k).

(** [s.split(sep)] for a one-character separator: every occurrence of the
    separator ends a piece, so the result is never empty. *)
Fixpoint split (sep : Ascii.ascii) (s : string) : list string :=
  match s with
  | EmptyString => [EmptyString]
  | String c rest =>
      if Ascii.eqb c sep then EmptyString :: split sep rest
      else match split sep rest with
           | [] => [String c EmptyString]
           | w :: ws => String c w :: ws
           end
  end.

(** A JavaScript string is held as its UTF-8 bytes.  [js_length] is its
    [.length], the number of its UTF-16 code units: one for each character
    of one to three bytes, two for each character of four bytes (a
    surrogate pair); a byte that belongs to no character counts as one
    unit.  [pending] is the number of continuation bytes the character
    being read still has. *)
Fixpoint utf16_units (pending : nat) (s : string) : nat :=
  match s with
  | EmptyString => 0%nat
  | String c rest =>
      let b := nat_of_ascii c in
      if (b <? 128)%nat then S (utf16_units 0 rest)
      else if (b <? 192)%nat then
        match pending with
        | S k => utf16_units k rest
        | O => S (utf16_units 0 rest)
        end
      else if (b <? 224)%nat then S (utf16_units 1 rest)
      else if (b <? 240)%nat then S (utf16_units 2 rest)
      else if (b <? 248)%nat then S (S (utf16_units 3 rest))
      else S (utf16_units 0 rest)
  end.

Definition js_length (s : string) : nat := utf16_units 0 s.

(** ** Errors and responses *)

Inductive ZodIssueCode := invalid_type | too_small | invalid_string | invalid_enum_value.

Record ZodIssue := { issue_path : string; issue_code : ZodIssueCode }.

Inductive SqlErrno :=
| ER_BAD_NULL_ERROR
| ER_TRUNCATED_WRONG_VALUE
| ER_DUP_ENTRY
| ER_NO_REFERENCED_ROW_2
| PROTOCOL_CONNECTION_LOST.

(** What a [catch (err)] can receive. *)
Inductive Error :=
| ZodError (issues : list ZodIssue)
| SqlError (errno : SqlErrno)
| LibError (message : string)
| TypeError (message : string).

Inductive Result (A : Type) :=
| Ok (a : A)
| Err (e : Error).
Arguments Ok {A} a.
Arguments Err {A} e.

(** [Result] is the error monad of a [try] block: the first [Err] skips the
    rest of the block and reaches the [catch]. *)
#[global] Instance Result_ret : MRet Result := fun A a => Ok a.

#[global] Instance Result_bind : MBind Result := fun A B k r =>
  match r with
  | Ok a => k a
  | Err e => Err e
  end.

(** ** Rows *)

Module User.
(** A row of [users]. *)
Record row := { id : Z; name : string; email : string; password : string; role : string }.
End User.

Module Session.
(** A row of [sessions]; [date] is the stored DATE, as the engine prints it. *)
Record row := { id : Z; title : string; date : string; formateur_id : Z }.
End Session.

Module Emargement.
(** A row of [emargement]; [status] is a BOOLEAN column, a TINYINT. *)
Record row := { id : Z; session_id : Z; etudiant_id : Z; status : Z }.
End Emargement.

(** [res.status(n).send(text)], [res.status(n).send(err.message)] and
    [res.status(n).json(value)]: the body is kept symbolic, so that the
    message of an error is the error itself. *)
Inductive Body :=
| Text (s : string)
| Message (err : Error)
| JsonToken (token : string)
| JsonSessions (rows : list Session.row)
| JsonSession (r : Session.row)
| JsonEmargement (rows : list Emargement.row).

Record Response := { status_code : Z; body_of : Body }.

(** What a handler leaves behind: a response written on [res], or an
    exception that escapes the handler before any response is written. *)
Inductive Outcome :=
| Sent (r : Response)
| Uncaught (e : Error).

Definition send (code : Z) (b : Body) : Outcome :=
  Sent {| status_code := code; body_of := b |}.

(** ** The store *)

(** The three tables, in primary-key order, each with its AUTO_INCREMENT
    counter, and the state of the connection pool [db]: [Some e] when the
    pool cannot reach the server, in which case every [db.query] rejects
    with [e]. *)
Record Store := {
  users : list User.row;
  users_auto : Z;
  sessions : list Session.row;
  sessions_auto : Z;
  emargement : list Emargement.row;
  emargement_auto : Z;
  pool_error : option Error
}.

(** ** The libraries, as interfaces *)

(** zod: the test behind [z.string().email()]. *)
Class Zod := { zod_email : string -> bool }.

(** bcrypt: [hash(data, rounds)] on a string, and [compare(data, hash)],
    which rejects when [data] is not something it can hash. *)
Class Bcrypt := {
  bcrypt_hash : string -> Z -> string;
  bcrypt_compare : JsVal -> string -> Result bool
}.

Module Jwt.
(** The claim set of a token: [{ id, role }] as the service signs it, with
    [iat] and [exp] once the library has stamped it. *)
Record Payload := { id : Z; role : string; iat : option Z; exp : option Z }.

Record SignOptions := { expiresIn : string }.
End Jwt.

(** jsonwebtoken: [sign(payload, secret, options)] and
    [verify(token, secret, callback)], both at the current time; the secret
    is [undefined] when the environment does not set it. *)
Class JsonWebToken := {
  jwt_sign : Jwt.Payload -> option string -> Jwt.SignOptions -> Z -> Result string;
  jwt_verify : string -> option string -> Z -> Result Jwt.Payload
}.

(** The MySQL engine: how a bound parameter is converted for a column of
    each type ([None]: the value is refused), and how a VARCHAR column
    compares with a parameter under the table's collation. *)
Class MySql := {
  cast_varchar : JsVal -> option string;
  cast_date : JsVal -> option string;
  cast_tinyint : JsVal -> option Z;
  varchar_eq : string -> JsVal -> bool
}.

(** [process.env]. *)
Class Env := { JWT_SECRET : option string }.

(** ** The statements the handlers issue *)

Section Queries.
Context {mysql : MySql}.

(** Every [db.query] first needs a connection from the pool. *)
Definition connected (st : Store) : Result unit :=
  match pool_error st with
  | Some e => Err e
  | None => Ok ()
  end.

(** A parameter bound to a NOT NULL column: the driver sends [undefined]
    and [null] as NULL, which the column refuses; any other value is
    converted by the engine. *)
Definition not_null {A} (cast : JsVal -> option A) (v : JsVal) : Result A :=
  match v with
  | JUndefined | JNull => Err (SqlError ER_BAD_NULL_ERROR)
  | _ => match cast v with
         | Some a => Ok a
         | None => Err (SqlError ER_TRUNCATED_WRONG_VALUE)
         end
  end.

Definition set_users (st : Store) (rows : list User.row) (auto : Z) : Store :=
  {| users := rows; users_auto := auto;
     sessions := sessions st; sessions_auto := sessions_auto st;
     emargement := emargement st; emargement_auto := emargement_auto st;
     pool_error := pool_error st |}.

Definition set_sessions (st : Store) (rows : list Session.row) (auto : Z)
    (children : list Emargement.row) : Store :=
  {| users := users st; users_auto := users_auto st;
     sessions := rows; sessions_auto := auto;
     emargement := children; emargement_auto := emargement_auto st;
     pool_error := pool_error st |}.

Definition set_emargement (st : Store) (rows : list Emargement.row) (auto : Z) : Store :=
  {| users := users st; users_auto := users_auto st;
     sessions := sessions st; sessions_auto := sessions_auto st;
     emargement := rows; emargement_auto := auto;
     pool_error := pool_error st |}.

Definition user_exists (st : Store) (id : Z) : bool :=
  existsb (fun u => bool_decide (User.id u = id)) (users st).

Definition session_exists (st : Store) (id : Z) : bool :=
  existsb (fun s => bool_decide (Session.id s = id)) (sessions st).

Definition email_taken (st : Store) (email : string) : bool :=
  existsb (fun u => varchar_eq (User.email u) (JStr email)) (users st).

(** [INSERT INTO users (name, email, password, role) VALUES (?, ?, ?, ?)];
    the four columns are NOT NULL and [email] is UNIQUE. *)
Definition insert_user (name email password role : JsVal) (st : Store) : Result Store :=
  _ ← connected st;
  n ← not_null cast_varchar name;
  e ← not_null cast_varchar email;
  p ← not_null cast_varchar password;
  r ← not_null cast_varchar role;
  if email_taken st e then Err (SqlError ER_DUP_ENTRY)
  else
    Ok (set_users st
          (users st ++ [{| User.id := users_auto st; User.name := n; User.email := e;
                           User.password := p; User.role := r |}])
          (users_auto st + 1)).

(** [SELECT * FROM users WHERE email = ?]; NULL equals nothing. *)
Definition select_users_by_email (email : JsVal) (st : Store) : Result (list User.row) :=
  _ ← connected st;
  match email with
  | JUndefined | JNull => Ok []
  | _ => Ok (filter (fun u => varchar_eq (User.email u) email = true) (users st))
  end.

(** [INSERT INTO sessions (title, date, formateur_id) VALUES (?, ?, ?)];
    [formateur_id] references the users table. *)
Definition insert_session (title date : JsVal) (formateur_id : Z) (st : Store) : Result Store :=
  _ ← connected st;
  t ← not_null cast_varchar title;
  d ← not_null cast_date date;
  if user_exists st formateur_id then
    Ok (set_sessions st
          (sessions st ++ [{| Session.id := sessions_auto st; Session.title := t;
                              Session.date := d; Session.formateur_id := formateur_id |}])
          (sessions_auto st + 1)
          (emargement st))
  else Err (SqlError ER_NO_REFERENCED_ROW_2).

(** [SELECT * FROM sessions]. *)
Definition select_sessions (st : Store) : Result (list Session.row) :=
  _ ← connected st;
  Ok (sessions st).

(** [SELECT * FROM sessions WHERE id = ?]. *)
Definition select_session_by_id (id : Z) (st : Store) : Result (list Session.row) :=
  _ ← connected st;
  Ok (filter (fun s => Session.id s = id) (sessions st)).

Definition overwrite (t d : string) (id : Z) (s : Session.row) : Session.row :=
  if bool_decide (Session.id s = id) then
    {| Session.id := Session.id s; Session.title := t; Session.date := d;
       Session.formateur_id := Session.formateur_id s |}
  else s.

(** [UPDATE sessions SET title = ?, date = ? WHERE id = ?]: the new values
    are converted when a row is written, so a statement that matches no
    row changes nothing and succeeds. *)
Definition update_session (title date : JsVal) (id : Z) (st : Store) : Result Store :=
  _ ← connected st;
  if session_exists st id then
    t ← not_null cast_varchar title;
    d ← not_null cast_date date;
    Ok (set_sessions st (overwrite t d id <$> sessions st) (sessions_auto st) (emargement st))
  else Ok st.

(** [DELETE FROM sessions WHERE id = ?]; the attendance rows of a deleted
    session go with it (ON DELETE CASCADE). *)
Definition delete_session (id : Z) (st : Store) : Result Store :=
  _ ← connected st;
  if session_exists st id then
    Ok (set_sessions st
          (filter (fun s => Session.id s ≠ id) (sessions st))
          (sessions_auto st)
          (filter (fun e => Emargement.session_id e ≠ id) (emargement st)))
  else Ok st.

(** [INSERT INTO emargement (session_id, etudiant_id, status) VALUES (?, ?, ?)];
    [status] is NOT NULL, [session_id] and [etudiant_id] are foreign keys. *)
Definition insert_emargement (session_id etudiant_id : Z) (status : JsVal) (st : Store)
    : Result Store :=
  _ ← connected st;
  b ← not_null cast_tinyint status;
  if session_exists st session_id && user_exists st etudiant_id then
    Ok (set_emargement st
          (emargement st ++ [{| Emargement.id := emargement_auto st;
                                Emargement.session_id := session_id;
                                Emargement.etudiant_id := etudiant_id;
                                Emargement.status := b |}])
          (emargement_auto st + 1))
  else Err (SqlError ER_NO_REFERENCED_ROW_2).

(** [SELECT * FROM emargement WHERE session_id = ?]. *)
Definition select_emargement_by_session (id : Z) (st : Store) : Result (list Emargement.row) :=
  _ ← connected st;
  Ok (filter (fun e => Emargement.session_id e = id) (emargement st)).

End Queries.

(** ** Requests *)

Record Request := {
  authorization : option string;  (* req.headers.authorization *)
  params_id : Z;                  (* req.params.id, read by the store as an INT key *)
  body : gmap string JsVal;       (* req.body, after bodyParser.json() *)
  user : option Jwt.Payload       (* req.user, undefined until the guard sets it *)
}.

(** [req.user = user]. *)
Definition with_user (req : Request) (u : Jwt.Payload) : Request :=
  {| authorization := authorization req; params_id := params_id req;
     body := body req; user := Some u |}.

Definition Handler : Type := Request -> Store -> Outcome * Store.

(** ** [userSchema] *)

Record UserInput := {
  in_name : string;
  in_email : string;
  in_password : string;
  in_role : string
}.

Section Schema.
Context {zod : Zod}.

Definition issue (path : string) (code : ZodIssueCode) : list ZodIssue + string :=
  inl [{| issue_path := path; issue_code := code |}].

(** [z.string().min(n)] *)
Definition z_string_min (n : nat) (path : string) (v : JsVal) : list ZodIssue + string :=
  match v with
  | JStr s => if (js_length s <? n)%nat then issue path too_small else inr s
  | _ => issue path invalid_type
  end.

(** [z.string().email()] *)
Definition z_string_email (path : string) (v : JsVal) : list ZodIssue + string :=
  match v with
  | JStr s => if zod_email s then inr s else issue path invalid_string
  | _ => issue path invalid_type
  end.

(** [z.enum(options)] *)
Definition z_enum (options : list string) (path : string) (v : JsVal)
    : list ZodIssue + string :=
  match v with
  | JStr s => if existsb (String.eqb s) options then inr s
              else issue path invalid_enum_value
  | _ => issue path invalid_type
  end.

Definition issues_of (r : list ZodIssue + string) : list ZodIssue :=
  match r with
  | inl l => l
  | inr _ => []
  end.

(** [userSchema.parse(req.body)]: the four fields are checked one by one
    and all the issues are thrown together. *)
Definition userSchema_parse (b : gmap string JsVal) : Result UserInput :=
  let name := z_string_min 1 "name" (prop b "name") in
  let email := z_string_email "email" (prop b "email") in
  let password := z_string_min 6 "password" (prop b "password") in
  let role := z_enum ["formateur"; "etudiant"] "role" (prop b "role") in
  match name, email, password, role with
  | inr n, inr e, inr p, inr r =>
      Ok {| in_name := n; in_email := e; in_password := p; in_role := r |}
  | _, _, _, _ =>
      Err (ZodError (issues_of name ++ issues_of email ++ issues_of password
                     ++ issues_of role))
  end.

End Schema.

(** ** The guard and the routes *)

Section Routes.
Context {zod : Zod} {bcrypt : Bcrypt} {jsonwebtoken : JsonWebToken} {mysql : MySql}
        {env : Env}.

(** [req.headers.authorization?.split(" ")[1]] *)
Definition bearer (req : Request) : option string :=
  h ← authorization req; split " "%char h !! 1%nat.

Definition authenticateJWT (now : Z) (next : Handler) : Handler := fun req st =>
  match bearer req with
  | None => (send 403 (Text "Access Denied"), st)
  | Some token =>
      if decide (token = "") then (send 403 (Text "Access Denied"), st)
      else match jwt_verify token JWT_SECRET now with
           | Err _ => (send 403 (Text "Invalid Token"), st)
           | Ok u => next (with_user req u) st
           end
  end.

(** The payload and options of [jwt.sign] in the login route. *)
Definition login_claims (u : User.row) : Jwt.Payload :=
  {| Jwt.id := User.id u; Jwt.role := User.role u; Jwt.iat := None; Jwt.exp := None |}.

Definition login_options : Jwt.SignOptions := {| Jwt.expiresIn := "1h" |}.

(** POST /auth/signup *)
Definition POST_auth_signup : Handler := fun req st =>
  let try :=
    input ← userSchema_parse (body req);
    let hashedPassword := bcrypt_hash (in_password input) 10 in
    insert_user (JStr (in_name input)) (JStr (in_email input)) (JStr hashedPassword)
                (JStr (in_role input)) st in
  match try with
  | Ok st' => (send 201 (Text "User registered successfully"), st')
  | Err err => (send 400 (Message err), st)
  end.

(** POST /auth/login *)
Definition POST_auth_login (now : Z) : Handler := fun req st =>
  let email := prop (body req) "email" in
  let password := prop (body req) "password" in
  let try :=
    rows ← select_users_by_email email st;
    match rows with
    | [] => Ok (send 401 (Text "Invalid email or password"))
    | u :: _ =>
        same ← bcrypt_compare password (User.password u);
        if negb same then Ok (send 401 (Text "Invalid email or password"))
        else
          token ← jwt_sign (login_claims u) JWT_SECRET login_options now;
          Ok (send 200 (JsonToken token))
    end in
  match try with
  | Ok out => (out, st)
  | Err err => (send 500 (Message err), st)
  end.

(** Reading [req.user.role] or [req.user.id] when [req.user] is undefined. *)
Definition no_user : Error := TypeError "Cannot read properties of undefined".

(** POST /sessions, behind the guard *)
Definition create_session : Handler := fun req st =>
  match user req with
  | None => (Uncaught no_user, st)
  | Some u =>
      if negb (String.eqb (Jwt.role u) "formateur") then
        (send 403 (Text "Access Denied"), st)
      else
        let title := prop (body req) "title" in
        let date := prop (body req) "date" in
        let formateur_id := Jwt.id u in
        match insert_session title date formateur_id st with
        | Ok st' => (send 201 (Text "Session created successfully"), st')
        | Err err => (send 400 (Message err), st)
        end
  end.

Definition POST_sessions (now : Z) : Handler := authenticateJWT now create_session.

(** GET /sessions *)
Definition GET_sessions : Handler := fun req st =>
  match select_sessions st with
  | Ok rows =>
      if decide (List.length rows = 0%nat) then (send 404 (Text "Session not found"), st)
      else (send 200 (JsonSessions rows), st)
  | Err err => (send 500 (Message err), st)
  end.

(** GET /sessions/:id *)
Definition GET_sessions_id : Handler := fun req st =>
  let id := params_id req in
  match select_session_by_id id st with
  | Ok [] => (send 404 (Text "Session not found"), st)
  | Ok (row :: _) => (send 200 (JsonSession row), st)
  | Err err => (send 500 (Message err), st)
  end.

(** PUT /sessions/:id, behind the guard *)
Definition update_session_handler : Handler := fun req st =>
  match user req with
  | None => (Uncaught no_user, st)
  | Some u =>
      if negb (String.eqb (Jwt.role u) "formateur") then
        (send 403 (Text "Access Denied"), st)
      else
        let id := params_id req in
        let title := prop (body req) "title" in
        let date := prop (body req) "date" in
        match update_session title date id st with
        | Ok st' => (send 200 (Text "Session updated successfully"), st')
        | Err err => (send 400 (Message err), st)
        end
  end.

Definition PUT_sessions_id (now : Z) : Handler := authenticateJWT now update_session_handler.

(** DELETE /sessions/:id, behind the guard *)
Definition delete_session_handler : Handler := fun req st =>
  match user req with
  | None => (Uncaught no_user, st)
  | Some u =>
      if negb (String.eqb (Jwt.role u) "formateur") then
        (send 403 (Text "Access Denied"), st)
      else
        let id := params_id req in
        match delete_session id st with
        | Ok st' => (send 200 (Text "Session deleted successfully"), st')
        | Err err => (send 400 (Message err), st)
        end
  end.

Definition DELETE_sessions_id (now : Z) : Handler :=
  authenticateJWT now delete_session_handler.

(** POST /sessions/:id/emargement, behind the guard *)
Definition mark_attendance : Handler := fun req st =>
  match user req with
  | None => (Uncaught no_user, st)
  | Some u =>
      if negb (String.eqb (Jwt.role u) "etudiant") then
        (send 403 (Text "Access Denied"), st)
      else
        let id := params_id req in
        let status := prop (body req) "status" in
        let etudiant_id := Jwt.id u in
        match insert_emargement id etudiant_id status st with
        | Ok st' => (send 201 (Text "Attendance marked successfully"), st')
        | Err err => (send 400 (Message err), st)
        end
  end.

Definition POST_sessions_id_emargement (now : Z) : Handler :=
  authenticateJWT now mark_attendance.

(** GET /sessions/:id/emargement, behind the guard *)
Definition list_attendance : Handler := fun req st =>
  match user req with
  | None => (Uncaught no_user, st)
  | Some u =>
      if negb (String.eqb (Jwt.role u) "formateur") then
        (send 403 (Text "Access Denied"), st)
      else
        let id := params_id req in
        match select_emargement_by_session id st with
        | Ok rows => (send 200 (JsonEmargement rows), st)
        | Err err => (send 500 (Message err), st)
        end
  end.

Definition GET_sessions_id_emargement (now : Z) : Handler :=
  authenticateJWT now list_attendance.

End Routes.

(** The status a handler answered with, if it answered. *)
Definition status_of (o : Outcome) : option Z :=
  match o with
  | Sent r => Some (status_code r)
  | Uncaught _ => None
  end.

Section RouteTable.
Context {zod : Zod} {bcrypt : Bcrypt} {jsonwebtoken : JsonWebToken} {mysql : MySql}
        {env : Env}.

(** The routes registered with [authenticateJWT]. *)
Definition protected_routes (now : Z) : list Handler :=
  [POST_sessions now; PUT_sessions_id now; DELETE_sessions_id now;
   POST_sessions_id_emargement now; GET_sessions_id_emargement now].

(** The guard turns the request away: no second piece in the header, an
    empty one, or a token that [jwt.verify] refuses. *)
Definition turned_away (now : Z) (req : Request) : Prop :=
  bearer req = None \/ bearer req = Some "" \/
  exists token e, bearer req = Some token /\ jwt_verify token JWT_SECRET now = Err e.

(** The guard lets the request through as [u]. *)
Definition admitted (now : Z) (req : Request) (u : Jwt.Payload) : Prop :=
  exists token, bearer req = Some token /\ token <> "" /\
                jwt_verify token JWT_SECRET now = Ok u.

Definition denied (st : Store) : Outcome * Store :=
  (send 403 (Text "Access Denied"), st).

Definition credentials_refused : Outcome :=
  send 401 (Text "Invalid email or password").

(** The four rules on the fields of a body: a non-empty name, a well-formed
    e-mail, a password of six characters or more, one of the two roles. *)
Definition satisfies_rules (b : gmap string JsVal) (n e p r : string) : Prop :=
  prop b "name" = JStr n /\ n <> "" /\
  prop b "email" = JStr e /\ zod_email e = true /\
  prop b "password" = JStr p /\ (6 <= js_length p)%nat /\
  prop b "role" = JStr r /\ (r = "formateur" \/ r = "etudiant").

Definition registered : Outcome := send 201 (Text "User registered successfully").

(** The signup contract read without the store's say: a body that breaks a
    rule is answered 400 and adds no user, a body that keeps the four rules
    is answered 201 and adds one user. *)
Definition signup_as_stated (req : Request) (st : Store) : Prop :=
  ((~ exists n e p r, satisfies_rules (body req) n e p r) ->
     status_of (POST_auth_signup req st).1 = Some 400 /\
     users (POST_auth_signup req st).2 = users st) /\
  (forall n e p r, satisfies_rules (body req) n e p r ->
     (POST_auth_signup req st).1 = registered /\
     exists row, users (POST_auth_signup req st).2 = (users st ++ [row])%list).

Definition updated : Outcome := send 200 (Text "Session updated successfully").

Definition deleted : Outcome := send 200 (Text "Session deleted successfully").

Definition marked : Outcome := send 201 (Text "Attendance marked successfully").

Definition not_found : Outcome := send 404 (Text "Session not found").

(** Every attendance row points to a stored session and a stored user, and
    every session to a stored user: what the foreign keys maintain. *)
Definition referential_integrity (st : Store) : Prop :=
  Forall (fun s => user_exists st (Session.formateur_id s) = true) (sessions st) /\
  Forall (fun e => session_exists st (Emargement.session_id e) = true /\
                   user_exists st (Emargement.etudiant_id e) = true) (emargement st).

(** Marking twice, for whatever session id the route is called with: both
    calls are answered 201 and the table ends with two new, distinct rows. *)
Definition marks_twice_as_stated (now : Z) (req : Request) (st : Store) : Prop :=
  exists st1 st2 r1 r2,
    POST_sessions_id_emargement now req st = (marked, st1) /\
    POST_sessions_id_emargement now req st1 = (marked, st2) /\
    emargement st2 = (emargement st ++ [r1; r2])%list /\ r1 <> r2.

(** The nine routes of the service. *)
Definition routes (now : Z) : list Handler :=
  [POST_auth_signup; POST_auth_login now; POST_sessions now; GET_sessions;
   GET_sessions_id; PUT_sessions_id now; DELETE_sessions_id now;
   POST_sessions_id_emargement now; GET_sessions_id_emargement now].

(** The statuses each route answers with, read off its [res.status] calls
    and those of the guard before it. *)
Definition status_table (now : Z) : list (Handler * list Z) :=
  [(POST_auth_signup, [201; 400]);
   (POST_auth_login now, [200; 401; 500]);
   (POST_sessions now, [201; 400; 403]);
   (GET_sessions, [200; 404; 500]);
   (GET_sessions_id, [200; 404; 500]);
   (PUT_sessions_id now, [200; 400; 403]);
   (DELETE_sessions_id now, [200; 400; 403]);
   (POST_sessions_id_emargement now, [201; 400; 403]);
   (GET_sessions_id_emargement now, [200; 403; 500])].

(** The routes that only read the store. *)
Definition reading_routes (now : Z) : list Handler :=
  [POST_auth_login now; GET_sessions; GET_sessions_id; GET_sessions_id_emargement now].

(** The primary keys: every stored id is below the AUTO_INCREMENT counter of
    its table, and no id occurs twice in a table. *)
Definition keys_fresh (st : Store) : Prop :=
  (Forall (fun u => User.id u < users_auto st) (users st) /\
   NoDup (User.id <$> users st)) /\
  (Forall (fun s => Session.id s < sessions_auto st) (sessions st) /\
   NoDup (Session.id <$> sessions st)) /\
  (Forall (fun e => Emargement.id e < emargement_auto st) (emargement st) /\
   NoDup (Emargement.id <$> emargement st)).

(** No stored user has an e-mail that the store finds equal to the e-mail
    of a user stored after it. *)
Definition emails_distinct (st : Store) : Prop :=
  ForallOrdPairs
    (fun v u => varchar_eq (User.email v) (JStr (User.email u)) = false) (users st).

Definition created : Outcome := send 201 (Text "Session created successfully").

(** A field that the body does not carry, or carries as [null]. *)
Definition missing (v : JsVal) : Prop := v = JUndefined \/ v = JNull.

(** A header word: no space inside. *)
Definition spaceless (w : string) : Prop :=
  forall c, In c (list_ascii_of_string w) -> c <> " "%char.

(** The routes that work on sessions and attendance without consulting the
    users table. *)
Definition user_blind_routes (now : Z) : list Handler :=
  [GET_sessions; GET_sessions_id; PUT_sessions_id now; DELETE_sessions_id now;
   GET_sessions_id_emargement now].

(** The two stores hold the same rows. *)
Definition same_rows (st st' : Store) : Prop :=
  users st' = users st /\ sessions st' = sessions st /\ emargement st' = emargement st.

(** The pool loses or finds the server again; the tables are not touched. *)
Definition set_pool (st : Store) (pe : option Error) : Store :=
  {| users := users st; users_auto := users_auto st;
     sessions := sessions st; sessions_auto := sessions_auto st;
     emargement := emargement st; emargement_auto := emargement_auto st;
     pool_error := pe |}.

(** The three tables right after their creation. *)
Definition no_rows : Store :=
  {| users := []; users_auto := 1; sessions := []; sessions_auto := 1;
     emargement := []; emargement_auto := 1; pool_error := None |}.

(** The stores that the service reaches from the empty tables: requests
    come one at a time, on any route, and the pool may fail or recover
    between two of them. *)
Inductive reachable : Store -> Prop :=
| reach_no_rows : reachable no_rows
| reach_pool st pe : reachable st -> reachable (set_pool st pe)
| reach_request st now route req :
    reachable st -> route ∈ routes now -> reachable (route req st).2.

End RouteTable.

(** ** Test doubles

    Small executable stand-ins for the libraries, a store and a few
    requests, on which the statements below are exercised. *)
Module Fixture.

Definition zod : Zod :=
  {| zod_email := fun s => existsb (Ascii.eqb "@"%char) (list_ascii_of_string s) |}.

Definition bcrypt : Bcrypt :=
  {| bcrypt_hash := fun data rounds => "$2b$10$" ++ data;
     bcrypt_compare := fun data hash =>
       match data with
       | JStr s => Ok (String.eqb hash ("$2b$10$" ++ s))
       | JUndefined | JNull => Err (LibError "data and hash arguments required")
       | _ => Err (LibError "data and hash must be strings")
       end |}.

Definition trainer : Jwt.Payload :=
  {| Jwt.id := 1; Jwt.role := "formateur"; Jwt.iat := Some 0; Jwt.exp := Some 3600 |}.

Definition other_trainer : Jwt.Payload :=
  {| Jwt.id := 3; Jwt.role := "formateur"; Jwt.iat := Some 0; Jwt.exp := Some 3600 |}.

Definition student : Jwt.Payload :=
  {| Jwt.id := 2; Jwt.role := "etudiant"; Jwt.iat := Some 0; Jwt.exp := Some 3600 |}.

(** Three tokens are known, all issued at time 0 for one hour. *)
Definition jsonwebtoken : JsonWebToken :=
  {| jwt_sign := fun p secret options now =>
       match secret with
       | None => Err (LibError "secretOrPrivateKey must have a value")
       | Some _ =>
           Ok (if bool_decide (Jwt.id p = 1) then "t1"
               else if bool_decide (Jwt.id p = 2) then "t2" else "t3")
       end;
     jwt_verify := fun token secret now =>
       let known p :=
         if 3600 <=? now then Err (LibError "jwt expired") else Ok p in
       if String.eqb token "t1" then known trainer
       else if String.eqb token "t2" then known student
       else if String.eqb token "t3" then known other_trainer
       else Err (LibError "jwt malformed") |}.

Definition mysql : MySql :=
  {| cast_varchar := fun v =>
       match v with
       | JStr s => if (String.length s <=? 255)%nat then Some s else None
       | _ => None
       end;
     cast_date := fun v =>
       match v with
       | JStr s => if (String.length s =? 10)%nat then Some s else None
       | _ => None
       end;
     cast_tinyint := fun v =>
       match v with
       | JBool b => Some (if b then 1 else 0)
       | JNum n => if (-128 <=? n) && (n <=? 127) then Some n else None
       | _ => None
       end;
     varchar_eq := fun s v =>
       match v with
       | JStr t => String.eqb s t
       | _ => false
       end |}.

Definition env : Env := {| JWT_SECRET := Some "s3cret" |}.

Definition prof : User.row :=
  {| User.id := 1; User.name := "Prof"; User.email := "prof@ecole.fr";
     User.password := "$2b$10$azerty1"; User.role := "formateur" |}.

Definition lea : User.row :=
  {| User.id := 2; User.name := "Lea"; User.email := "lea@ecole.fr";
     User.password := "$2b$10$qwerty2"; User.role := "etudiant" |}.

Definition maths : Session.row :=
  {| Session.id := 1; Session.title := "Maths"; Session.date := "2025-01-15";
     Session.formateur_id := 1 |}.

Definition empty_store : Store :=
  {| users := []; users_auto := 1; sessions := []; sessions_auto := 1;
     emargement := []; emargement_auto := 1; pool_error := None |}.

(** Two users and one session, held by trainer 1. *)
Definition store : Store :=
  {| users := [prof; lea]; users_auto := 4; sessions := [maths]; sessions_auto := 2;
     emargement := []; emargement_auto := 1; pool_error := None |}.

Definition request (auth : option string) (id : Z) (fields : list (string * JsVal))
    : Request :=
  {| authorization := auth; params_id := id; body := list_to_map fields; user := None |}.

(** Requests carrying the token of the trainer, of another trainer and of
    the student. *)
Definition as_trainer := request (Some "Bearer t1").

Definition as_other_trainer := request (Some "Bearer t3").

Definition as_student := request (Some "Bearer t2").

Definition login_lea (password : string) : Request :=
  request None 0 [("email", JStr "lea@ecole.fr"); ("password", JStr password)].

Definition signup (name email password role : string) : Request :=
  request None 0 [("name", JStr name); ("email", JStr email);
                  ("password", JStr password); ("role", JStr role)].

(** A second token issuer, whose one token carries a role that no route
    asks for. *)
Definition guest : Jwt.Payload :=
  {| Jwt.id := 5; Jwt.role := "invite"; Jwt.iat := Some 0; Jwt.exp := Some 3600 |}.

Definition jsonwebtoken_guest : JsonWebToken :=
  {| jwt_sign := fun p secret options now => Ok "t4";
     jwt_verify := fun token secret now =>
       if String.eqb token "t4" then Ok guest else Err (LibError "jwt malformed") |}.

Definition as_guest := request (Some "Bearer t4").

Definition algebra : list (string * JsVal) :=
  [("title", JStr "Algebra"); ("date", JStr "2025-02-01")].

End Fixture.

(** ** Two facts on [filter] *)

Lemma filter_none {A} (P : A -> Prop) `{forall x, Decision (P x)} (l : list A) :
  Forall (fun x => ~ P x) l -> filter P l = [].
Proof.
  intros Hall. induction Hall as [| x l Hx _ IH]; [reflexivity |].
  rewrite filter_cons, IH. case_decide; [contradiction | reflexivity].
Qed.

Lemma filter_all {A} (P : A -> Prop) `{forall x, Decision (P x)} (l : list A) :
  Forall P l -> filter P l = l.
Proof.
  intros Hall. induction Hall as [| x l Hx _ IH]; [reflexivity |].
  rewrite filter_cons, IH. case_decide; [reflexivity | contradiction].
Qed.

(** ** The guard *)

Section Guard.
Context {zod : Zod} {bcrypt : Bcrypt} {jsonwebtoken : JsonWebToken} {mysql : MySql}
        {env : Env}.

Lemma authenticateJWT_absent now next req st :
  bearer req = None \/ bearer req = Some "" ->
  authenticateJWT now next req st = (send 403 (Text "Access Denied"), st).
Proof.
  unfold authenticateJWT. intros [-> | ->]; [reflexivity |].
  case_decide; [reflexivity | congruence].
Qed.

Lemma authenticateJWT_refused now next req st token e :
  bearer req = Some token ->
  jwt_verify token JWT_SECRET now = Err e ->
  exists text, authenticateJWT now next req st = (send 403 (Text text), st).
Proof.
  unfold authenticateJWT. intros -> Hv. rewrite Hv.
  case_decide; eauto.
Qed.

Lemma authenticateJWT_admitted now next req st u :
  admitted now req u ->
  authenticateJWT now next req st = next (with_user req u) st.
Proof.
  unfold authenticateJWT. intros (token & -> & Hne & ->).
  case_decide; [congruence | reflexivity].
Qed.

Lemma authenticateJWT_turned_away now next req st :
  turned_away now req ->
  status_of (authenticateJWT now next req st).1 = Some 403 /\
  (authenticateJWT now next req st).2 = st.
Proof.
  intros [Hb | [Hb | (token & e & Hb & Hv)]].
  - rewrite authenticateJWT_absent by auto. split; reflexivity.
  - rewrite authenticateJWT_absent by auto. split; reflexivity.
  - destruct (authenticateJWT_refused now next req st token e Hb Hv) as [text ->].
    split; reflexivity.
Qed.

(** The header values a client can send: nothing, a scheme alone, or a
    scheme, one space and a token. *)
Lemma split_no_sep sep s :
  (forall c, In c (list_ascii_of_string s) -> c <> sep) ->
  split sep s = [s].
Proof.
  induction s as [| c s IH]; intros Hs; [reflexivity |].
  simpl. destruct (Ascii.eqb_spec c sep) as [-> | Hc].
  - exfalso. apply (Hs sep); [left; reflexivity | reflexivity].
  - rewrite IH; [reflexivity |]. intros c' Hc'. apply Hs. right. exact Hc'.
Qed.

Lemma split_scheme_token sep scheme rest :
  (forall c, In c (list_ascii_of_string scheme) -> c <> sep) ->
  split sep (scheme ++ String sep rest)%string = scheme :: split sep rest.
Proof.
  induction scheme as [| c s IH]; intros Hs; simpl.
  - rewrite Ascii.eqb_refl. reflexivity.
  - destruct (Ascii.eqb_spec c sep) as [-> | Hc].
    + exfalso. apply (Hs sep); [left; reflexivity | reflexivity].
    + rewrite IH; [reflexivity |]. intros c' Hc'. apply Hs. right. exact Hc'.
Qed.

Lemma bearer_no_header id b u :
  bearer {| authorization := None; params_id := id; body := b; user := u |} = None.
Proof. reflexivity. Qed.

Lemma bearer_scheme_only id b u scheme :
  (forall c, In c (list_ascii_of_string scheme) -> c <> " "%char) ->
  bearer {| authorization := Some scheme; params_id := id; body := b; user := u |} = None.
Proof.
  intros Hs. unfold bearer. simpl. rewrite split_no_sep by exact Hs. reflexivity.
Qed.

Lemma bearer_scheme_token id b u scheme token :
  (forall c, In c (list_ascii_of_string scheme) -> c <> " "%char) ->
  (forall c, In c (list_ascii_of_string token) -> c <> " "%char) ->
  bearer {| authorization := Some (scheme ++ String " " token)%string;
            params_id := id; body := b; user := u |} = Some token.
Proof.
  intros Hs Ht. unfold bearer. simpl.
  rewrite split_scheme_token by exact Hs.
  rewrite split_no_sep by exact Ht. reflexivity.
Qed.

(** C3. On every protected route, a request without a bearer token, or
    with a token that verification refuses (bad signature, expired,
    malformed), is answered 403 and the store is left as it was, whatever
    the handler behind the guard is: the handler is not run.  A request
    whose token verifies is handed to the handler with the decoded
    payload attached as [req.user]. *)
Theorem guard_rejects_or_attaches now req st :
  (turned_away now req ->
     (forall next,
        status_of (authenticateJWT now next req st).1 = Some 403 /\
        (authenticateJWT now next req st).2 = st) /\
     (forall next next',
        authenticateJWT now next req st = authenticateJWT now next' req st) /\
     Forall (fun route => status_of (route req st).1 = Some 403 /\ (route req st).2 = st)
            (protected_routes now)) /\
  (forall u, admitted now req u ->
     (forall next, authenticateJWT now next req st = next (with_user req u) st) /\
     user (with_user req u) = Some u /\
     POST_sessions now req st = create_session (with_user req u) st /\
     PUT_sessions_id now req st = update_session_handler (with_user req u) st /\
     DELETE_sessions_id now req st = delete_session_handler (with_user req u) st /\
     POST_sessions_id_emargement now req st = mark_attendance (with_user req u) st /\
     GET_sessions_id_emargement now req st = list_attendance (with_user req u) st).
Proof.
  split.
  - intros Hout. split; [| split].
    + intros next. apply authenticateJWT_turned_away. exact Hout.
    + intros next next'.
      destruct Hout as [Hb | [Hb | (token & e & Hb & Hv)]].
      * rewrite !authenticateJWT_absent by auto. reflexivity.
      * rewrite !authenticateJWT_absent by auto. reflexivity.
      * unfold authenticateJWT. rewrite Hb, Hv. reflexivity.
    + unfold protected_routes.
      repeat (apply Forall_cons; split;
              [apply authenticateJWT_turned_away; exact Hout |]).
      apply Forall_nil. exact I.
  - intros u Hin. split; [| split; [reflexivity |]].
    + intros next. apply authenticateJWT_admitted. exact Hin.
    + repeat split; apply authenticateJWT_admitted; exact Hin.
Qed.

End Guard.

(** ** The role checks *)

Section Roles.
Context {zod : Zod} {bcrypt : Bcrypt} {jsonwebtoken : JsonWebToken} {mysql : MySql}
        {env : Env}.

Lemma role_eqb_neq (r wanted : string) :
  r <> wanted -> negb (String.eqb r wanted) = true.
Proof. intros Hne. destruct (String.eqb_spec r wanted); [contradiction | reflexivity]. Qed.

(** C2. With a token that verifies: a student token is answered 403 by the
    four trainer-only routes and a trainer token is answered 403 by the
    student-only route, the store being left as it was; with the role the
    route asks for, the request goes past the check and is answered by
    the outcome of the store statement (201 or 200 when the store accepts
    it, 400 or 500 when it does not), never by the 403 of the check. *)
Theorem role_check now req st u :
  admitted now req u ->
  (Jwt.role u = "etudiant" ->
     POST_sessions now req st = denied st /\
     PUT_sessions_id now req st = denied st /\
     DELETE_sessions_id now req st = denied st /\
     GET_sessions_id_emargement now req st = denied st /\
     status_of (POST_sessions_id_emargement now req st).1 ∈ [Some 201; Some 400]) /\
  (Jwt.role u = "formateur" ->
     POST_sessions_id_emargement now req st = denied st /\
     status_of (POST_sessions now req st).1 ∈ [Some 201; Some 400] /\
     status_of (PUT_sessions_id now req st).1 ∈ [Some 200; Some 400] /\
     status_of (DELETE_sessions_id now req st).1 ∈ [Some 200; Some 400] /\
     status_of (GET_sessions_id_emargement now req st).1 ∈ [Some 200; Some 500]).
Proof.
  intros Hin.
  unfold POST_sessions, PUT_sessions_id, DELETE_sessions_id,
    POST_sessions_id_emargement, GET_sessions_id_emargement.
  rewrite !(authenticateJWT_admitted now _ req st u Hin).
  unfold create_session, update_session_handler, delete_session_handler,
    mark_attendance, list_attendance, denied.
  simpl. split; intros ->; simpl.
  - repeat split.
    destruct (insert_emargement _ _ _ st); simpl; set_solver.
  - repeat split.
    + destruct (insert_session _ _ _ st); simpl; set_solver.
    + destruct (update_session _ _ _ st); simpl; set_solver.
    + destruct (delete_session _ st); simpl; set_solver.
    + destruct (select_emargement_by_session _ st); simpl; set_solver.
Qed.

End Roles.

(** ** Listing the sessions *)

Section Listing.
Context {mysql : MySql}.

(** C4. When the store answers, GET /sessions is 404 on an empty sessions
    table and 200 with all the rows on a non-empty one; and in no state of
    the store is the answer 200 with an empty array. *)
Theorem get_sessions_empty_is_404 req st :
  (pool_error st = None ->
     (sessions st = [] ->
        GET_sessions req st = (send 404 (Text "Session not found"), st)) /\
     (sessions st <> [] ->
        GET_sessions req st = (send 200 (JsonSessions (sessions st)), st))) /\
  (GET_sessions req st).1 <> send 200 (JsonSessions []).
Proof.
  unfold GET_sessions, select_sessions, connected.
  split.
  - intros ->. simpl. split.
    + intros ->. reflexivity.
    + intros Hne. destruct (sessions st) as [| s rows]; [congruence | reflexivity].
  - destruct (pool_error st); simpl; [discriminate |].
    destruct (sessions st); simpl; discriminate.
Qed.

End Listing.

(** ** Logging in *)

Section Login.
Context {bcrypt : Bcrypt} {jsonwebtoken : JsonWebToken} {mysql : MySql} {env : Env}.

Lemma select_users_by_email_none email st :
  pool_error st = None ->
  Forall (fun u => varchar_eq (User.email u) email = false) (users st) ->
  select_users_by_email email st = Ok [].
Proof.
  intros Hp Hall. unfold select_users_by_email, connected. rewrite Hp. simpl.
  assert (filter (fun u => varchar_eq (User.email u) email = true) (users st) = [])
    as ->.
  { induction Hall as [| u l Hu _ IH]; [reflexivity |].
    rewrite filter_cons, IH. case_decide; [congruence | reflexivity]. }
  destruct email; reflexivity.
Qed.

(** The third way a login can fail: when [bcrypt.compare] rejects, the
    [catch] answers 500 with the library's message. *)
Lemma login_compare_rejects now req st u rest e :
  select_users_by_email (prop (body req) "email") st = Ok (u :: rest) ->
  bcrypt_compare (prop (body req) "password") (User.password u) = Err e ->
  POST_auth_login now req st = (send 500 (Message e), st).
Proof.
  intros Hsel Hc. unfold POST_auth_login. rewrite Hsel. simpl. rewrite Hc. reflexivity.
Qed.

(** C1. The login route lets the caller tell the two failure causes apart
    in one case: for a password that [bcrypt.compare] rejects instead of
    answering (a body without password, a password that is not a string),
    a store in which the lookup finds no user answers 401 with
    "Invalid email or password", while a store in which it finds one
    answers 500 with the library's message, so the caller learns that the
    e-mail is registered. *)
Theorem login_rejected_password_tells_apart now req st1 st2 u rest e :
  select_users_by_email (prop (body req) "email") st1 = Ok [] ->
  select_users_by_email (prop (body req) "email") st2 = Ok (u :: rest) ->
  bcrypt_compare (prop (body req) "password") (User.password u) = Err e ->
  POST_auth_login now req st1 = (credentials_refused, st1) /\
  POST_auth_login now req st2 = (send 500 (Message e), st2) /\
  (POST_auth_login now req st1).1 <> (POST_auth_login now req st2).1.
Proof.
  intros H1 H2 Hc.
  assert (POST_auth_login now req st1 = (credentials_refused, st1)) as E1.
  { unfold POST_auth_login. rewrite H1. reflexivity. }
  assert (POST_auth_login now req st2 = (send 500 (Message e), st2)) as E2.
  { unfold POST_auth_login. rewrite H2. simpl. rewrite Hc. reflexivity. }
  rewrite E1, E2. split; [reflexivity |]. split; [reflexivity |].
  simpl. discriminate.
Qed.

(** What the route does keep alike: the same request is answered alike by
    a store in which the lookup finds no user and by a store in which it
    finds one whose stored hash does not verify the password, 401 with the
    text "Invalid email or password" in both, the stores left as they
    were. *)
Theorem login_failures_indistinguishable now req st1 st2 u rest :
  select_users_by_email (prop (body req) "email") st1 = Ok [] ->
  select_users_by_email (prop (body req) "email") st2 = Ok (u :: rest) ->
  bcrypt_compare (prop (body req) "password") (User.password u) = Ok false ->
  POST_auth_login now req st1 = (credentials_refused, st1) /\
  POST_auth_login now req st2 = (credentials_refused, st2) /\
  (POST_auth_login now req st1).1 = (POST_auth_login now req st2).1.
Proof.
  intros H1 H2 Hc.
  assert (POST_auth_login now req st1 = (credentials_refused, st1)) as E1.
  { unfold POST_auth_login. rewrite H1. reflexivity. }
  assert (POST_auth_login now req st2 = (credentials_refused, st2)) as E2.
  { unfold POST_auth_login. rewrite H2. simpl. rewrite Hc. reflexivity. }
  rewrite E1, E2. auto.
Qed.

(** C9. A login is answered 200 exactly when the lookup finds a user, the
    password verifies against the stored hash and [jwt.sign] returns a
    token; the body is then that token, signed over the claim set
    [{ id, role }] of the user found, nothing else, with the option
    [expiresIn: "1h"]. *)
Theorem login_success_token now req st :
  (forall r,
     (POST_auth_login now req st).1 = Sent r -> status_code r = 200 ->
     exists u rest token,
       select_users_by_email (prop (body req) "email") st = Ok (u :: rest) /\
       bcrypt_compare (prop (body req) "password") (User.password u) = Ok true /\
       jwt_sign {| Jwt.id := User.id u; Jwt.role := User.role u;
                   Jwt.iat := None; Jwt.exp := None |}
                JWT_SECRET {| Jwt.expiresIn := "1h" |} now = Ok token /\
       r = {| status_code := 200; body_of := JsonToken token |}) /\
  (forall u rest token,
     select_users_by_email (prop (body req) "email") st = Ok (u :: rest) ->
     bcrypt_compare (prop (body req) "password") (User.password u) = Ok true ->
     jwt_sign {| Jwt.id := User.id u; Jwt.role := User.role u;
                 Jwt.iat := None; Jwt.exp := None |}
              JWT_SECRET {| Jwt.expiresIn := "1h" |} now = Ok token ->
     POST_auth_login now req st = (send 200 (JsonToken token), st)).
Proof.
  split.
  - intros r. unfold POST_auth_login.
    destruct (select_users_by_email _ st) as [[| u rest] | e] eqn:Hsel; simpl;
      try (intros [= <-]; discriminate).
    destruct (bcrypt_compare _ (User.password u)) as [[|] | e] eqn:Hc; simpl;
      try (intros [= <-]; discriminate).
    unfold login_claims, login_options.
    destruct (jwt_sign _ _ _ now) as [token | e] eqn:Hs; simpl;
      try (intros [= <-]; discriminate).
    intros [= <-] _. exists u, rest, token. auto.
  - intros u rest token Hsel Hc Hs. unfold POST_auth_login.
    rewrite Hsel. simpl. rewrite Hc. simpl.
    unfold login_claims, login_options. rewrite Hs. reflexivity.
Qed.

End Login.

(** ** Signing up *)

Section Signup.
Context {zod : Zod} {bcrypt : Bcrypt} {mysql : MySql}.

Lemma z_string_min_inr n path v s :
  z_string_min n path v = inr s <-> v = JStr s /\ (n <= js_length s)%nat.
Proof.
  unfold z_string_min, issue. split.
  - destruct v as [| | b | k | t]; try discriminate.
    destruct (Nat.ltb_spec (js_length t) n); [discriminate |].
    intros [= ->]. auto.
  - intros [-> Hn]. destruct (Nat.ltb_spec (js_length s) n); [lia | reflexivity].
Qed.

Lemma z_string_email_inr path v s :
  z_string_email path v = inr s <-> v = JStr s /\ zod_email s = true.
Proof.
  unfold z_string_email, issue. split.
  - destruct v as [| | b | k | t]; try discriminate.
    destruct (zod_email t) eqn:He; [| discriminate].
    intros [= <-]. auto.
  - intros [-> ->]. reflexivity.
Qed.

Lemma z_enum_roles_inr path v s :
  z_enum ["formateur"; "etudiant"] path v = inr s <->
  v = JStr s /\ (s = "formateur" \/ s = "etudiant").
Proof.
  unfold z_enum, issue. simpl. split.
  - destruct v as [| | b | k | t]; try discriminate.
    destruct (String.eqb_spec t "formateur") as [-> | H1]; simpl.
    + intros [= <-]. auto.
    + destruct (String.eqb_spec t "etudiant") as [-> | H2]; simpl.
      * intros [= <-]. auto.
      * discriminate.
  - intros [-> [-> | ->]]; reflexivity.
Qed.

Lemma nonempty_length (s : string) : s <> "" <-> (1 <= js_length s)%nat.
Proof.
  destruct s as [| c rest].
  - split; [congruence | unfold js_length; simpl; lia].
  - split; [intros _ | discriminate].
    unfold js_length. cbn [utf16_units].
    repeat destruct (_ <? _)%nat; lia.
Qed.

Lemma userSchema_parse_Ok b i :
  userSchema_parse b = Ok i <->
  satisfies_rules b (in_name i) (in_email i) (in_password i) (in_role i).
Proof.
  unfold userSchema_parse, satisfies_rules. split.
  - destruct (z_string_min 1 "name" _) as [? | n] eqn:Hn; [discriminate |].
    destruct (z_string_email "email" _) as [? | e] eqn:He;
      [destruct (z_string_min 6 _ _), (z_enum _ _ _); discriminate |].
    destruct (z_string_min 6 "password" _) as [? | p] eqn:Hp;
      [destruct (z_enum _ _ _); discriminate |].
    destruct (z_enum _ "role" _) as [? | r] eqn:Hr; [discriminate |].
    intros [= <-]. simpl.
    apply z_string_min_inr in Hn as [-> Hn], Hp as [-> Hp].
    apply z_string_email_inr in He as [-> He].
    apply z_enum_roles_inr in Hr as [-> Hr].
    rewrite nonempty_length. auto 10.
  - intros (Hn & Hn' & He & He' & Hp & Hp' & Hr & Hr').
    apply nonempty_length in Hn'.
    rewrite (proj2 (z_string_min_inr 1 "name" _ _) (conj Hn Hn')).
    rewrite (proj2 (z_string_email_inr "email" _ _) (conj He He')).
    rewrite (proj2 (z_string_min_inr 6 "password" _ _) (conj Hp Hp')).
    rewrite (proj2 (z_enum_roles_inr "role" _ _) (conj Hr Hr')).
    destruct i; reflexivity.
Qed.

Lemma userSchema_parse_total b :
  (exists i, userSchema_parse b = Ok i) \/
  (exists issues, userSchema_parse b = Err (ZodError issues)).
Proof.
  unfold userSchema_parse.
  destruct (z_string_min 1 "name" _), (z_string_email "email" _),
    (z_string_min 6 "password" _), (z_enum _ "role" _); eauto.
Qed.

(** C5, amended. A body that breaks one of the four rules is answered 400
    with the schema's issues and the store is left as it was.  A body that
    keeps them, on a store that answers and whose columns take the four
    values, is answered 201 with a fixed text when no stored user has the
    e-mail: the users table read after the request is the one before it
    followed by exactly one row, holding the next id, the name, the e-mail,
    the role and the bcrypt hash (10 rounds) of the password; the sessions
    and attendance tables are as before.  When a stored user has the
    e-mail, the answer is 400 and the store is left as it was. *)
Theorem signup_validates_then_inserts req st :
  ((~ exists n e p r, satisfies_rules (body req) n e p r) ->
     exists issues,
       POST_auth_signup req st = (send 400 (Message (ZodError issues)), st)) /\
  (forall n e p r n' e' p' r',
     satisfies_rules (body req) n e p r ->
     pool_error st = None ->
     cast_varchar (JStr n) = Some n' ->
     cast_varchar (JStr e) = Some e' ->
     cast_varchar (JStr (bcrypt_hash p 10)) = Some p' ->
     cast_varchar (JStr r) = Some r' ->
     (email_taken st e' = false ->
        POST_auth_signup req st =
          (registered,
           set_users st
             (users st ++ [{| User.id := users_auto st; User.name := n';
                              User.email := e'; User.password := p';
                              User.role := r' |}])
             (users_auto st + 1)) /\
        users (POST_auth_signup req st).2 =
          (users st ++ [{| User.id := users_auto st; User.name := n';
                           User.email := e'; User.password := p';
                           User.role := r' |}])%list /\
        users_auto (POST_auth_signup req st).2 = users_auto st + 1 /\
        sessions (POST_auth_signup req st).2 = sessions st /\
        emargement (POST_auth_signup req st).2 = emargement st) /\
     (email_taken st e' = true ->
        POST_auth_signup req st = (send 400 (Message (SqlError ER_DUP_ENTRY)), st))).
Proof.
  split.
  - intros Hbad. unfold POST_auth_signup.
    destruct (userSchema_parse_total (body req)) as [[i Hi] | [issues Hi]].
    + exfalso. apply Hbad. apply userSchema_parse_Ok in Hi. eauto.
    + rewrite Hi. simpl. eauto.
  - intros n e p r n' e' p' r' Hok Hpool Hn He Hp Hr.
    pose (i := {| in_name := n; in_email := e; in_password := p; in_role := r |}).
    assert (userSchema_parse (body req) = Ok i) as Hi
      by (apply userSchema_parse_Ok; exact Hok).
    unfold POST_auth_signup. rewrite Hi. simpl.
    unfold insert_user, connected. rewrite Hpool. simpl.
    rewrite Hn. simpl. rewrite He. simpl. rewrite Hp. simpl. rewrite Hr. simpl.
    split; intros ->; simpl; [| reflexivity].
    repeat split.
Qed.

End Signup.

(** ** Sessions and attendance *)

Section Resources.
Context {zod : Zod} {bcrypt : Bcrypt} {jsonwebtoken : JsonWebToken} {mysql : MySql}
        {env : Env}.

Lemma session_exists_true st id :
  session_exists st id = true <-> exists s, s ∈ sessions st /\ Session.id s = id.
Proof.
  unfold session_exists. rewrite existsb_exists. split.
  - intros (s & Hin & Hs). exists s. split; [apply list_elem_of_In; exact Hin |].
    apply bool_decide_eq_true in Hs. exact Hs.
  - intros (s & Hin & Hs). exists s. split; [apply list_elem_of_In; exact Hin |].
    apply bool_decide_eq_true. exact Hs.
Qed.

Lemma user_exists_true st id :
  user_exists st id = true <-> exists u, u ∈ users st /\ User.id u = id.
Proof.
  unfold user_exists. rewrite existsb_exists. split.
  - intros (s & Hin & Hs). exists s. split; [apply list_elem_of_In; exact Hin |].
    apply bool_decide_eq_true in Hs. exact Hs.
  - intros (s & Hin & Hs). exists s. split; [apply list_elem_of_In; exact Hin |].
    apply bool_decide_eq_true. exact Hs.
Qed.

Lemma session_exists_false st id :
  session_exists st id = false ->
  filter (fun s => Session.id s = id) (sessions st) = [] /\
  filter (fun s => Session.id s <> id) (sessions st) = sessions st.
Proof.
  unfold session_exists. induction (sessions st) as [| s l IH]; [auto |].
  simpl. intros Hf. apply orb_false_iff in Hf as [Hs Hl].
  apply bool_decide_eq_false in Hs. destruct (IH Hl) as [IH1 IH2].
  rewrite !filter_cons, IH1, IH2.
  split; case_decide; congruence.
Qed.

(** C10. For an id that no stored session has, on a store that answers, a
    trainer's PUT and DELETE are both answered 200 with the success text and
    leave the store as it was, whatever the body holds, while GET on the
    same id is answered 404. *)
Theorem update_delete_unknown_id_succeed now req st u :
  admitted now req u ->
  Jwt.role u = "formateur" ->
  pool_error st = None ->
  session_exists st (params_id req) = false ->
  PUT_sessions_id now req st = (updated, st) /\
  DELETE_sessions_id now req st = (deleted, st) /\
  GET_sessions_id req st = (not_found, st).
Proof.
  intros Hin Hrole Hpool Hno.
  unfold PUT_sessions_id, DELETE_sessions_id.
  rewrite !(authenticateJWT_admitted now _ req st u Hin).
  unfold update_session_handler, delete_session_handler, GET_sessions_id.
  simpl. rewrite Hrole. simpl.
  unfold update_session, delete_session, select_session_by_id, connected.
  rewrite Hpool. simpl. rewrite Hno.
  destruct (session_exists_false st _ Hno) as [-> _].
  auto.
Qed.

(** C8. On a store that answers, a trainer's GET /sessions/:id/emargement
    is answered 200 with the attendance rows of that session and leaves the
    store as it was; when no row has the session id the body is the empty
    array, which under the foreign keys is the case of every id that no
    stored session has. *)
Theorem attendance_list_may_be_empty now req st u :
  admitted now req u ->
  Jwt.role u = "formateur" ->
  pool_error st = None ->
  GET_sessions_id_emargement now req st =
    (send 200 (JsonEmargement
                 (filter (fun e => Emargement.session_id e = params_id req)
                         (emargement st))), st) /\
  (Forall (fun e => Emargement.session_id e <> params_id req) (emargement st) ->
     GET_sessions_id_emargement now req st = (send 200 (JsonEmargement []), st)) /\
  (referential_integrity st -> session_exists st (params_id req) = false ->
     GET_sessions_id_emargement now req st = (send 200 (JsonEmargement []), st)).
Proof.
  intros Hin Hrole Hpool.
  assert (GET_sessions_id_emargement now req st =
    (send 200 (JsonEmargement
                 (filter (fun e => Emargement.session_id e = params_id req)
                         (emargement st))), st)) as Heq.
  { unfold GET_sessions_id_emargement.
    rewrite (authenticateJWT_admitted now _ req st u Hin).
    unfold list_attendance. simpl. rewrite Hrole. simpl.
    unfold select_emargement_by_session, connected. rewrite Hpool. reflexivity. }
  assert (Forall (fun e => Emargement.session_id e <> params_id req) (emargement st) ->
          filter (fun e => Emargement.session_id e = params_id req) (emargement st) = [])
    as Hnone.
  { apply filter_none. }
  split; [exact Heq |]. split.
  - intros Hall. rewrite Heq, (Hnone Hall). reflexivity.
  - intros [_ Hfk] Hno. rewrite Heq, Hnone; [reflexivity |].
    eapply Forall_impl; [exact Hfk |]. simpl. intros e [He _] Heq'.
    rewrite Heq' in He. congruence.
Qed.

Lemma insert_emargement_accepted sid uid v b st :
  pool_error st = None ->
  session_exists st sid = true ->
  user_exists st uid = true ->
  not_null cast_tinyint v = Ok b ->
  insert_emargement sid uid v st =
    Ok (set_emargement st
          (emargement st ++ [{| Emargement.id := emargement_auto st;
                                Emargement.session_id := sid;
                                Emargement.etudiant_id := uid;
                                Emargement.status := b |}])
          (emargement_auto st + 1)).
Proof.
  intros Hpool Hs Hu Hv. unfold insert_emargement, connected.
  rewrite Hpool. simpl. rewrite Hv. simpl. rewrite Hs, Hu. reflexivity.
Qed.

(** C6, amended. For a session that is stored, a student whose user row is
    stored and a status the column takes, on a store that answers, marking
    attendance twice is answered 201 both times and appends two rows to the
    attendance table, with consecutive ids and the same session, student
    and status: nothing merges the second submission into the first. *)
Theorem mark_twice_two_rows now req st u b :
  admitted now req u ->
  Jwt.role u = "etudiant" ->
  pool_error st = None ->
  session_exists st (params_id req) = true ->
  user_exists st (Jwt.id u) = true ->
  not_null cast_tinyint (prop (body req) "status") = Ok b ->
  exists st1 st2 r1 r2,
    POST_sessions_id_emargement now req st = (marked, st1) /\
    POST_sessions_id_emargement now req st1 = (marked, st2) /\
    emargement st2 = (emargement st ++ [r1; r2])%list /\
    r1 <> r2 /\
    r1 = {| Emargement.id := emargement_auto st;
            Emargement.session_id := params_id req;
            Emargement.etudiant_id := Jwt.id u; Emargement.status := b |} /\
    r2 = {| Emargement.id := emargement_auto st + 1;
            Emargement.session_id := params_id req;
            Emargement.etudiant_id := Jwt.id u; Emargement.status := b |}.
Proof.
  intros Hin Hrole Hpool Hs Hu Hv.
  pose (r1 := {| Emargement.id := emargement_auto st;
                 Emargement.session_id := params_id req;
                 Emargement.etudiant_id := Jwt.id u; Emargement.status := b |}).
  pose (r2 := {| Emargement.id := emargement_auto st + 1;
                 Emargement.session_id := params_id req;
                 Emargement.etudiant_id := Jwt.id u; Emargement.status := b |}).
  pose (st1 := set_emargement st (emargement st ++ [r1]) (emargement_auto st + 1)).
  pose (st2 := set_emargement st1 (emargement st1 ++ [r2]) (emargement_auto st1 + 1)).
  assert (forall s s', pool_error s = None -> session_exists s (params_id req) = true ->
            user_exists s (Jwt.id u) = true ->
            insert_emargement (params_id req) (Jwt.id u) (prop (body req) "status") s
              = Ok s' ->
            POST_sessions_id_emargement now req s = (marked, s')) as Hstep.
  { intros s s' _ _ _ Hins. unfold POST_sessions_id_emargement.
    rewrite (authenticateJWT_admitted now _ req s u Hin).
    unfold mark_attendance. simpl. rewrite Hrole. simpl. rewrite Hins. reflexivity. }
  exists st1, st2, r1, r2. repeat split.
  - apply Hstep; try assumption. apply insert_emargement_accepted; assumption.
  - apply Hstep; try assumption. apply insert_emargement_accepted; assumption.
  - simpl. rewrite <- app_assoc. reflexivity.
  - intros Heq. apply (f_equal Emargement.id) in Heq. simpl in Heq. lia.
Qed.

Lemma overwrite_hit t d id s :
  Session.id s = id ->
  overwrite t d id s =
    {| Session.id := Session.id s; Session.title := t; Session.date := d;
       Session.formateur_id := Session.formateur_id s |}.
Proof. intros Hs. unfold overwrite. rewrite bool_decide_eq_true_2 by exact Hs. reflexivity. Qed.

Lemma overwrite_miss t d id s :
  Session.id s <> id -> overwrite t d id s = s.
Proof. intros Hs. unfold overwrite. rewrite bool_decide_eq_false_2 by exact Hs. reflexivity. Qed.

(** C7. For a trainer, a stored session and a title and a date that the
    columns take, on a store that answers, PUT /sessions/:id is answered 200
    and the sessions table read after the request holds the session with
    the new title and date, its id and trainer reference as before, and
    every session of another id as it was; users and attendance are
    untouched.  The caller's id is not looked at: the session's
    [formateur_id] is not compared with it, and any other trainer's token
    gives the same outcome. *)
Theorem any_trainer_updates_any_session now req st u s t d :
  admitted now req u ->
  Jwt.role u = "formateur" ->
  pool_error st = None ->
  s ∈ sessions st ->
  Session.id s = params_id req ->
  not_null cast_varchar (prop (body req) "title") = Ok t ->
  not_null cast_date (prop (body req) "date") = Ok d ->
  PUT_sessions_id now req st =
    (updated,
     set_sessions st (overwrite t d (params_id req) <$> sessions st)
                  (sessions_auto st) (emargement st)) /\
  sessions (PUT_sessions_id now req st).2
    = overwrite t d (params_id req) <$> sessions st /\
  {| Session.id := Session.id s; Session.title := t; Session.date := d;
     Session.formateur_id := Session.formateur_id s |}
    ∈ sessions (PUT_sessions_id now req st).2 /\
  (forall s', s' ∈ sessions (PUT_sessions_id now req st).2 ->
              Session.id s' = params_id req ->
              Session.title s' = t /\ Session.date s' = d) /\
  (forall s', s' ∈ sessions st -> Session.id s' <> params_id req ->
              s' ∈ sessions (PUT_sessions_id now req st).2) /\
  users (PUT_sessions_id now req st).2 = users st /\
  emargement (PUT_sessions_id now req st).2 = emargement st /\
  (forall u', Jwt.role u' = "formateur" ->
              update_session_handler (with_user req u') st =
              update_session_handler (with_user req u) st).
Proof.
  intros Hin Hrole Hpool Hs Hid Ht Hd.
  assert (session_exists st (params_id req) = true) as Hex
    by (apply session_exists_true; eauto).
  assert (PUT_sessions_id now req st =
          (updated,
           set_sessions st (overwrite t d (params_id req) <$> sessions st)
                        (sessions_auto st) (emargement st))) as Hput.
  { unfold PUT_sessions_id. rewrite (authenticateJWT_admitted now _ req st u Hin).
    unfold update_session_handler. simpl. rewrite Hrole. simpl.
    unfold update_session, connected. rewrite Hpool. simpl. rewrite Hex.
    rewrite Ht. simpl. rewrite Hd. reflexivity. }
  rewrite Hput. simpl.
  split; [reflexivity |]. split; [reflexivity |]. split; [| split; [| split]].
  - rewrite <- (overwrite_hit t d (params_id req) s Hid).
    apply list_elem_of_fmap_2. exact Hs.
  - intros s' Hs' Hid'. apply list_elem_of_fmap in Hs' as (s0 & -> & _).
    revert Hid'. unfold overwrite. case_bool_decide as H0; simpl; [auto |].
    intros Hid'. contradiction.
  - intros s' Hs' Hne. rewrite <- (overwrite_miss t d (params_id req) s' Hne) at 1.
    apply list_elem_of_fmap_2. exact Hs'.
  - split; [reflexivity |]. split; [reflexivity |].
    intros u' Hrole'. unfold update_session_handler. simpl.
    rewrite Hrole, Hrole'. reflexivity.
Qed.

End Resources.

(** ** The foreign keys hold in every state the routes reach *)

Section Integrity.
Context {zod : Zod} {bcrypt : Bcrypt} {jsonwebtoken : JsonWebToken} {mysql : MySql}
        {env : Env}.

Lemma integrity_transfer st st' :
  (forall id, user_exists st id = true -> user_exists st' id = true) ->
  (forall s', s' ∈ sessions st' ->
     user_exists st' (Session.formateur_id s') = true \/
     exists s, s ∈ sessions st /\ Session.formateur_id s = Session.formateur_id s') ->
  (forall e, e ∈ emargement st' ->
     (session_exists st' (Emargement.session_id e) = true /\
      user_exists st' (Emargement.etudiant_id e) = true) \/
     (e ∈ emargement st /\
      (session_exists st (Emargement.session_id e) = true ->
       session_exists st' (Emargement.session_id e) = true))) ->
  referential_integrity st -> referential_integrity st'.
Proof.
  intros Hu Hs He [Is Ie]. rewrite Forall_forall in Is. rewrite Forall_forall in Ie.
  split; apply Forall_forall.
  - intros s' Hin. destruct (Hs s' Hin) as [Hok | (s & Hs0 & Heq)]; [exact Hok |].
    rewrite <- Heq. apply Hu, Is, Hs0.
  - intros e Hin. destruct (He e Hin) as [Hok | [Hin0 Hkeep]]; [exact Hok |].
    destruct (Ie e Hin0) as [H1 H2]. split; [apply Hkeep, H1 | apply Hu, H2].
Qed.

Lemma insert_user_integrity n e p r st st' :
  insert_user n e p r st = Ok st' -> referential_integrity st -> referential_integrity st'.
Proof.
  unfold insert_user.
  destruct (connected st); simpl; [| discriminate].
  destruct (not_null cast_varchar n); simpl; [| discriminate].
  destruct (not_null cast_varchar e); simpl; [| discriminate].
  destruct (not_null cast_varchar p); simpl; [| discriminate].
  destruct (not_null cast_varchar r); simpl; [| discriminate].
  destruct (email_taken st _); [discriminate |].
  intros [= <-]. apply integrity_transfer.
  - intros id. rewrite !user_exists_true. simpl. intros (u & Hu & Hid).
    exists u. split; [apply elem_of_app; left; exact Hu | exact Hid].
  - simpl. intros s' Hs'. right. eauto.
  - simpl. intros e' He'. right. auto.
Qed.

Lemma insert_session_integrity t d f st st' :
  insert_session t d f st = Ok st' -> referential_integrity st -> referential_integrity st'.
Proof.
  unfold insert_session.
  destruct (connected st); simpl; [| discriminate].
  destruct (not_null cast_varchar t); simpl; [| discriminate].
  destruct (not_null cast_date d); simpl; [| discriminate].
  destruct (user_exists st f) eqn:Hf; [| discriminate].
  intros [= <-]. apply integrity_transfer.
  - auto.
  - simpl. intros s' Hs'. apply elem_of_app in Hs' as [Hs' | Hs'].
    + right. eauto.
    + left. apply list_elem_of_singleton in Hs' as ->. exact Hf.
  - simpl. intros e' He'. right. split; [exact He' |].
    rewrite !session_exists_true. simpl. intros (s & Hs & Hid).
    exists s. split; [apply elem_of_app; left; exact Hs | exact Hid].
Qed.

Lemma update_session_integrity t d id st st' :
  update_session t d id st = Ok st' -> referential_integrity st -> referential_integrity st'.
Proof.
  unfold update_session.
  destruct (connected st); simpl; [| discriminate].
  destruct (session_exists st id); [| intros [= <-]; auto].
  destruct (not_null cast_varchar t) as [t' |]; simpl; [| discriminate].
  destruct (not_null cast_date d) as [d' |]; simpl; [| discriminate].
  intros [= <-]. apply integrity_transfer.
  - auto.
  - simpl. intros s' Hs'. right.
    apply list_elem_of_fmap in Hs' as (s & -> & Hs). exists s. split; [exact Hs |].
    unfold overwrite. case_bool_decide; reflexivity.
  - simpl. intros e' He'. right. split; [exact He' |].
    rewrite !session_exists_true. simpl. intros (s & Hs & Hid).
    exists (overwrite t' d' id s). split; [apply list_elem_of_fmap_2; exact Hs |].
    unfold overwrite. case_bool_decide; exact Hid.
Qed.

Lemma delete_session_integrity id st st' :
  delete_session id st = Ok st' -> referential_integrity st -> referential_integrity st'.
Proof.
  unfold delete_session.
  destruct (connected st); simpl; [| discriminate].
  destruct (session_exists st id); [| intros [= <-]; auto].
  intros [= <-]. apply integrity_transfer.
  - auto.
  - simpl. intros s' Hs'. right. apply list_elem_of_filter in Hs' as [_ Hs']. eauto.
  - simpl. intros e' He'. right. apply list_elem_of_filter in He' as [Hne He'].
    split; [exact He' |].
    rewrite !session_exists_true. simpl. intros (s & Hs & Hid).
    exists s. split; [| exact Hid]. apply list_elem_of_filter. split; [congruence | exact Hs].
Qed.

Lemma insert_emargement_integrity sid uid v st st' :
  insert_emargement sid uid v st = Ok st' ->
  referential_integrity st -> referential_integrity st'.
Proof.
  unfold insert_emargement.
  destruct (connected st); simpl; [| discriminate].
  destruct (not_null cast_tinyint v); simpl; [| discriminate].
  destruct (session_exists st sid) eqn:Hs; simpl; [| discriminate].
  destruct (user_exists st uid) eqn:Hu; simpl; [| discriminate].
  intros [= <-]. apply integrity_transfer.
  - auto.
  - simpl. intros s' Hs'. right. eauto.
  - simpl. intros e' He'. apply elem_of_app in He' as [He' | He'].
    + right. auto.
    + left. apply list_elem_of_singleton in He' as ->. simpl. auto.
Qed.

Lemma guard_preserves (P : Store -> Prop) now next req st :
  (forall r s, P s -> P (next r s).2) ->
  P st -> P (authenticateJWT now next req st).2.
Proof.
  intros Hnext HP. unfold authenticateJWT.
  destruct (bearer req) as [token |]; [| exact HP].
  case_decide; [exact HP |].
  destruct (jwt_verify token JWT_SECRET now); [apply Hnext |]; exact HP.
Qed.

Lemma routes_preserve_integrity now route req st :
  route ∈ routes now ->
  referential_integrity st -> referential_integrity (route req st).2.
Proof.
  unfold routes. intros Hroute HI.
  repeat (apply elem_of_cons in Hroute as [-> | Hroute]);
    [ | | | | | | | | | apply elem_of_nil in Hroute; contradiction ].
  - unfold POST_auth_signup.
    destruct (userSchema_parse (body req)) as [i |]; simpl; [| exact HI].
    destruct (insert_user _ _ _ _ st) eqn:Hq; simpl; [| exact HI].
    eapply insert_user_integrity; eauto.
  - unfold POST_auth_login. destruct (_ ≫= _); exact HI.
  - unfold POST_sessions. apply (guard_preserves referential_integrity); [| exact HI].
    clear. intros r s HI.
    unfold create_session. destruct (user r) as [u |]; [| exact HI].
    destruct (negb _); [exact HI |].
    destruct (insert_session _ _ _ s) eqn:Hq; simpl; [| exact HI].
    eapply insert_session_integrity; eauto.
  - unfold GET_sessions. destruct (select_sessions st); [| exact HI].
    case_decide; exact HI.
  - unfold GET_sessions_id. destruct (select_session_by_id _ st) as [[| ? ?] |]; exact HI.
  - unfold PUT_sessions_id. apply (guard_preserves referential_integrity); [| exact HI].
    clear. intros r s HI.
    unfold update_session_handler. destruct (user r) as [u |]; [| exact HI].
    destruct (negb _); [exact HI |].
    destruct (update_session _ _ _ s) eqn:Hq; simpl; [| exact HI].
    eapply update_session_integrity; eauto.
  - unfold DELETE_sessions_id. apply (guard_preserves referential_integrity); [| exact HI].
    clear. intros r s HI.
    unfold delete_session_handler. destruct (user r) as [u |]; [| exact HI].
    destruct (negb _); [exact HI |].
    destruct (delete_session _ s) eqn:Hq; simpl; [| exact HI].
    eapply delete_session_integrity; eauto.
  - unfold POST_sessions_id_emargement. apply (guard_preserves referential_integrity); [| exact HI].
    clear. intros r s HI.
    unfold mark_attendance. destruct (user r) as [u |]; [| exact HI].
    destruct (negb _); [exact HI |].
    destruct (insert_emargement _ _ _ s) eqn:Hq; simpl; [| exact HI].
    eapply insert_emargement_integrity; eauto.
  - unfold GET_sessions_id_emargement. apply (guard_preserves referential_integrity); [| exact HI].
    clear. intros r s HI.
    unfold list_attendance. destruct (user r) as [u |]; [| exact HI].
    destruct (negb _); [exact HI |].
    destruct (select_emargement_by_session _ s); exact HI.
Qed.

End Integrity.

(** ** What every route does *)

Section AllRoutes.
Context {zod : Zod} {bcrypt : Bcrypt} {jsonwebtoken : JsonWebToken} {mysql : MySql}
        {env : Env}.

Lemma authenticateJWT_cases now next req st :
  authenticateJWT now next req st = (send 403 (Text "Access Denied"), st) \/
  authenticateJWT now next req st = (send 403 (Text "Invalid Token"), st) \/
  exists u, admitted now req u /\
            authenticateJWT now next req st = next (with_user req u) st.
Proof.
  unfold authenticateJWT, admitted.
  destruct (bearer req) as [token |] eqn:Hb; [| auto].
  case_decide; [auto |].
  destruct (jwt_verify token JWT_SECRET now) as [u |] eqn:Hv; [| auto].
  right. right. exists u. split; [exists token |]; auto.
Qed.

(** What the five handlers behind the guard do once [req.user] is set. *)
Ltac behind_guard now next req st :=
  destruct (authenticateJWT_cases now next req st) as [-> | [-> | (? & _ & ->)]].

Ltac run_handler :=
  unfold create_session, update_session_handler, delete_session_handler,
    mark_attendance, list_attendance, GET_sessions, GET_sessions_id;
  simpl; repeat case_match; simpl.

Ltac run_signup :=
  unfold POST_auth_signup;
  destruct (userSchema_parse _) as [? |]; simpl;
  try destruct (insert_user _ _ _ _ _); simpl.

Ltac run_login :=
  unfold POST_auth_login;
  destruct (select_users_by_email _ _) as [[| ? ?] |]; simpl;
  try (destruct (bcrypt_compare _ _) as [[|] |]; simpl);
  try (destruct (jwt_sign _ _ _ _); simpl).

(** X1. Each of the nine routes always writes a response, and its status is
    one of those of the route: 201/400 for signup, 200/401/500 for login,
    200/404/500 for the two public reads, and for the five routes behind
    the guard 403 or the two statuses of their store statement.  No request
    makes a handler read [req.user] before the guard has set it. *)
Theorem routes_answer_within_table now req st :
  (status_table now).*1 = routes now /\
  Forall (fun entry =>
            exists code, status_of (entry.1 req st).1 = Some code /\ code ∈ entry.2)
         (status_table now).
Proof.
  split; [reflexivity |].
  unfold status_table.
  repeat (apply Forall_cons; split); try (apply Forall_nil; exact I); simpl.
  - run_signup; eexists; (split; [reflexivity | set_solver]).
  - run_login; eexists; (split; [reflexivity | set_solver]).
  - unfold POST_sessions. behind_guard now create_session req st;
      run_handler; eexists; (split; [reflexivity | set_solver]).
  - run_handler; eexists; (split; [reflexivity | set_solver]).
  - run_handler; eexists; (split; [reflexivity | set_solver]).
  - unfold PUT_sessions_id. behind_guard now update_session_handler req st;
      run_handler; eexists; (split; [reflexivity | set_solver]).
  - unfold DELETE_sessions_id. behind_guard now delete_session_handler req st;
      run_handler; eexists; (split; [reflexivity | set_solver]).
  - unfold POST_sessions_id_emargement. behind_guard now mark_attendance req st;
      run_handler; eexists; (split; [reflexivity | set_solver]).
  - unfold GET_sessions_id_emargement. behind_guard now list_attendance req st;
      run_handler; eexists; (split; [reflexivity | set_solver]).
Qed.

(** X2. A request that is answered with an error status (400 or above)
    has added, changed and removed no row, on every route. *)
Theorem refused_requests_change_nothing now req st :
  Forall (fun route =>
            forall code, status_of (route req st).1 = Some code -> 400 <= code ->
                         same_rows st (route req st).2)
         (routes now).
Proof.
  unfold routes.
  repeat (apply Forall_cons; split); try (apply Forall_nil; exact I); simpl.
  - run_signup; intros code [= <-] Hc; first [lia | repeat split].
  - run_login; intros code [= <-] Hc; first [lia | repeat split].
  - unfold POST_sessions. behind_guard now create_session req st;
      run_handler; intros code [= <-] Hc; first [lia | repeat split].
  - run_handler; intros code [= <-] Hc; first [lia | repeat split].
  - run_handler; intros code [= <-] Hc; first [lia | repeat split].
  - unfold PUT_sessions_id. behind_guard now update_session_handler req st;
      run_handler; intros code [= <-] Hc; first [lia | repeat split].
  - unfold DELETE_sessions_id. behind_guard now delete_session_handler req st;
      run_handler; intros code [= <-] Hc; first [lia | repeat split].
  - unfold POST_sessions_id_emargement. behind_guard now mark_attendance req st;
      run_handler; intros code [= <-] Hc; first [lia | repeat split].
  - unfold GET_sessions_id_emargement. behind_guard now list_attendance req st;
      run_handler; intros code [= <-] Hc; first [lia | repeat split].
Qed.

(** X3. Logging in and the three GET routes never change the store,
    whatever the request and whatever they answer. *)
Theorem reading_routes_change_nothing now req st :
  Forall (fun route => (route req st).2 = st) (reading_routes now).
Proof.
  unfold reading_routes.
  repeat (apply Forall_cons; split); try (apply Forall_nil; exact I); simpl.
  - run_login; reflexivity.
  - run_handler; reflexivity.
  - run_handler; reflexivity.
  - unfold GET_sessions_id_emargement. behind_guard now list_attendance req st;
      run_handler; reflexivity.
Qed.

End AllRoutes.

(** ** What the write statements do when they succeed *)

Section Statements.
Context {mysql : MySql}.

Lemma insert_user_Ok n e p r st st' :
  insert_user n e p r st = Ok st' ->
  exists n' e' p' r',
    not_null cast_varchar n = Ok n' /\ not_null cast_varchar e = Ok e' /\
    not_null cast_varchar p = Ok p' /\ not_null cast_varchar r = Ok r' /\
    pool_error st = None /\ email_taken st e' = false /\
    st' = set_users st
            (users st ++ [{| User.id := users_auto st; User.name := n';
                             User.email := e'; User.password := p';
                             User.role := r' |}])
            (users_auto st + 1).
Proof.
  unfold insert_user, connected.
  destruct (pool_error st); simpl; [discriminate |].
  destruct (not_null cast_varchar n) as [n' |]; simpl; [| discriminate].
  destruct (not_null cast_varchar e) as [e' |]; simpl; [| discriminate].
  destruct (not_null cast_varchar p) as [p' |]; simpl; [| discriminate].
  destruct (not_null cast_varchar r) as [r' |]; simpl; [| discriminate].
  destruct (email_taken st e') eqn:Ht; [discriminate |].
  intros [= <-]. exists n', e', p', r'. auto 10.
Qed.

Lemma insert_session_Ok t d f st st' :
  insert_session t d f st = Ok st' ->
  exists t' d',
    not_null cast_varchar t = Ok t' /\ not_null cast_date d = Ok d' /\
    pool_error st = None /\ user_exists st f = true /\
    st' = set_sessions st
            (sessions st ++ [{| Session.id := sessions_auto st; Session.title := t';
                                Session.date := d'; Session.formateur_id := f |}])
            (sessions_auto st + 1) (emargement st).
Proof.
  unfold insert_session, connected.
  destruct (pool_error st); simpl; [discriminate |].
  destruct (not_null cast_varchar t) as [t' |]; simpl; [| discriminate].
  destruct (not_null cast_date d) as [d' |]; simpl; [| discriminate].
  destruct (user_exists st f) eqn:Hf; [| discriminate].
  intros [= <-]. exists t', d'. auto 10.
Qed.

Lemma update_session_Ok t d id st st' :
  update_session t d id st = Ok st' ->
  pool_error st = None /\
  ((session_exists st id = false /\ st' = st) \/
   exists t' d',
     session_exists st id = true /\
     not_null cast_varchar t = Ok t' /\ not_null cast_date d = Ok d' /\
     st' = set_sessions st (overwrite t' d' id <$> sessions st) (sessions_auto st)
             (emargement st)).
Proof.
  unfold update_session, connected.
  destruct (pool_error st); simpl; [discriminate |].
  destruct (session_exists st id); [| intros [= <-]; auto].
  destruct (not_null cast_varchar t) as [t' |]; simpl; [| discriminate].
  destruct (not_null cast_date d) as [d' |]; simpl; [| discriminate].
  intros [= <-]. split; [reflexivity |]. right. exists t', d'. auto.
Qed.

Lemma delete_session_Ok id st st' :
  delete_session id st = Ok st' ->
  pool_error st = None /\
  ((session_exists st id = false /\ st' = st) \/
   (session_exists st id = true /\
    st' = set_sessions st (filter (fun s => Session.id s <> id) (sessions st))
            (sessions_auto st)
            (filter (fun e => Emargement.session_id e <> id) (emargement st)))).
Proof.
  unfold delete_session, connected.
  destruct (pool_error st); simpl; [discriminate |].
  destruct (session_exists st id); intros [= <-]; auto.
Qed.

Lemma insert_emargement_Ok sid uid v st st' :
  insert_emargement sid uid v st = Ok st' ->
  exists b,
    not_null cast_tinyint v = Ok b /\ pool_error st = None /\
    session_exists st sid = true /\ user_exists st uid = true /\
    st' = set_emargement st
            (emargement st ++ [{| Emargement.id := emargement_auto st;
                                  Emargement.session_id := sid;
                                  Emargement.etudiant_id := uid;
                                  Emargement.status := b |}])
            (emargement_auto st + 1).
Proof.
  unfold insert_emargement, connected.
  destruct (pool_error st); simpl; [discriminate |].
  destruct (not_null cast_tinyint v) as [b |]; simpl; [| discriminate].
  destruct (session_exists st sid) eqn:Hs; simpl; [| discriminate].
  destruct (user_exists st uid) eqn:Hu; simpl; [| discriminate].
  intros [= <-]. exists b. auto 10.
Qed.

End Statements.

Section Footprint.
Context {zod : Zod} {bcrypt : Bcrypt} {jsonwebtoken : JsonWebToken} {mysql : MySql}
        {env : Env}.

(** The routes reach the store only through their statement: whatever the
    five write statements preserve, every route preserves. *)
Lemma routes_preserve (P : Store -> Prop) :
  (forall n e p r st st', insert_user n e p r st = Ok st' -> P st -> P st') ->
  (forall t d f st st', insert_session t d f st = Ok st' -> P st -> P st') ->
  (forall t d id st st', update_session t d id st = Ok st' -> P st -> P st') ->
  (forall id st st', delete_session id st = Ok st' -> P st -> P st') ->
  (forall sid uid v st st', insert_emargement sid uid v st = Ok st' -> P st -> P st') ->
  forall now req st, P st -> Forall (fun route => P (route req st).2) (routes now).
Proof.
  intros Hiu His Hus Hds Hie now req st HP.
  unfold routes.
  repeat (apply Forall_cons; split); try (apply Forall_nil; exact I).
  - unfold POST_auth_signup.
    destruct (userSchema_parse (body req)) as [i |]; simpl; [| exact HP].
    destruct (insert_user _ _ _ _ st) eqn:Hq; simpl; [| exact HP]. eauto.
  - unfold POST_auth_login. destruct (_ ≫= _); exact HP.
  - unfold POST_sessions. apply (guard_preserves P); [| exact HP].
    intros r s HPs. unfold create_session. destruct (user r) as [u |]; [| exact HPs].
    destruct (negb _); [exact HPs |].
    destruct (insert_session _ _ _ s) eqn:Hq; simpl; [| exact HPs]. eauto.
  - unfold GET_sessions. destruct (select_sessions st); [| exact HP].
    case_decide; exact HP.
  - unfold GET_sessions_id. destruct (select_session_by_id _ st) as [[| ? ?] |]; exact HP.
  - unfold PUT_sessions_id. apply (guard_preserves P); [| exact HP].
    intros r s HPs. unfold update_session_handler.
    destruct (user r) as [u |]; [| exact HPs].
    destruct (negb _); [exact HPs |].
    destruct (update_session _ _ _ s) eqn:Hq; simpl; [| exact HPs]. eauto.
  - unfold DELETE_sessions_id. apply (guard_preserves P); [| exact HP].
    intros r s HPs. unfold delete_session_handler.
    destruct (user r) as [u |]; [| exact HPs].
    destruct (negb _); [exact HPs |].
    destruct (delete_session _ s) eqn:Hq; simpl; [| exact HPs]. eauto.
  - unfold POST_sessions_id_emargement. apply (guard_preserves P); [| exact HP].
    intros r s HPs. unfold mark_attendance. destruct (user r) as [u |]; [| exact HPs].
    destruct (negb _); [exact HPs |].
    destruct (insert_emargement _ _ _ s) eqn:Hq; simpl; [| exact HPs]. eauto.
  - unfold GET_sessions_id_emargement. apply (guard_preserves P); [| exact HP].
    intros r s HPs. unfold list_attendance. destruct (user r) as [u |]; [| exact HPs].
    destruct (negb _); [exact HPs |].
    destruct (select_emargement_by_session _ s); exact HPs.
Qed.

(** X4. Which route touches which table: the users table is changed by
    signup only, which appends one row with the next id; the sessions table
    by POST, PUT and DELETE on sessions only; the attendance table by
    marking attendance and by DELETE on sessions only.  No route changes or
    removes a stored user. *)
Theorem route_footprint now req st :
  Forall (fun route =>
            (users (route req st).2 = users st \/
             route = POST_auth_signup /\
             exists row, User.id row = users_auto st /\
                         users (route req st).2 = (users st ++ [row])%list) /\
            (sessions (route req st).2 = sessions st \/
             route ∈ [POST_sessions now; PUT_sessions_id now; DELETE_sessions_id now]) /\
            (emargement (route req st).2 = emargement st \/
             route ∈ [POST_sessions_id_emargement now; DELETE_sessions_id now]))
         (routes now).
Proof.
  unfold routes.
  repeat (apply Forall_cons; split); try (apply Forall_nil; exact I).
  - unfold POST_auth_signup.
    destruct (userSchema_parse (body req)) as [i |]; simpl; [| auto].
    destruct (insert_user _ _ _ _ st) as [st' |] eqn:Hq; simpl; [| auto].
    apply insert_user_Ok in Hq as (n' & e' & p' & r' & _ & _ & _ & _ & _ & _ & ->).
    simpl. split; [| auto]. right. split; [reflexivity |].
    eexists. split; [| reflexivity]. reflexivity.
  - rewrite (Forall_inv (reading_routes_change_nothing now req st)). auto.
  - unfold POST_sessions, PUT_sessions_id, POST_sessions_id_emargement.
    split; [| split]; [| right; set_solver |].
    + left. apply (guard_preserves (fun s => users s = users st)); [| reflexivity].
      intros r s Hs. unfold create_session. repeat case_match; simpl; try exact Hs.
      match goal with H : insert_session _ _ _ _ = Ok _ |- _ =>
        apply insert_session_Ok in H as (? & ? & _ & _ & _ & _ & ->) end. exact Hs.
    + left. apply (guard_preserves (fun s => emargement s = emargement st));
        [| reflexivity].
      intros r s Hs. unfold create_session. repeat case_match; simpl; try exact Hs.
      match goal with H : insert_session _ _ _ _ = Ok _ |- _ =>
        apply insert_session_Ok in H as (? & ? & _ & _ & _ & _ & ->) end. exact Hs.
  - pose proof (reading_routes_change_nothing now req st) as Hr.
    apply Forall_inv_tail, Forall_inv in Hr. rewrite Hr. auto.
  - pose proof (reading_routes_change_nothing now req st) as Hr.
    do 2 apply Forall_inv_tail in Hr. apply Forall_inv in Hr. rewrite Hr. auto.
  - unfold POST_sessions, PUT_sessions_id, POST_sessions_id_emargement.
    split; [| split]; [| right; set_solver |].
    + left. apply (guard_preserves (fun s => users s = users st)); [| reflexivity].
      intros r s Hs. unfold update_session_handler.
      repeat case_match; simpl; try exact Hs.
      match goal with H : update_session _ _ _ _ = Ok _ |- _ =>
        apply update_session_Ok in H as [_ [[_ ->] | (? & ? & _ & _ & _ & ->)]] end;
        exact Hs.
    + left. apply (guard_preserves (fun s => emargement s = emargement st));
        [| reflexivity].
      intros r s Hs. unfold update_session_handler.
      repeat case_match; simpl; try exact Hs.
      match goal with H : update_session _ _ _ _ = Ok _ |- _ =>
        apply update_session_Ok in H as [_ [[_ ->] | (? & ? & _ & _ & _ & ->)]] end;
        exact Hs.
  - unfold DELETE_sessions_id.
    split; [| split]; [| right; set_solver | right; set_solver].
    left. apply (guard_preserves (fun s => users s = users st)); [| reflexivity].
    intros r s Hs. unfold delete_session_handler.
    repeat case_match; simpl; try exact Hs.
    match goal with H : delete_session _ _ = Ok _ |- _ =>
      apply delete_session_Ok in H as [_ [[_ ->] | [_ ->]]] end; exact Hs.
  - unfold POST_sessions_id_emargement.
    split; [| split]; [| | right; set_solver].
    + left. apply (guard_preserves (fun s => users s = users st)); [| reflexivity].
      intros r s Hs. unfold mark_attendance. repeat case_match; simpl; try exact Hs.
      match goal with H : insert_emargement _ _ _ _ = Ok _ |- _ =>
        apply insert_emargement_Ok in H as (? & _ & _ & _ & _ & ->) end. exact Hs.
    + left. apply (guard_preserves (fun s => sessions s = sessions st)); [| reflexivity].
      intros r s Hs. unfold mark_attendance. repeat case_match; simpl; try exact Hs.
      match goal with H : insert_emargement _ _ _ _ = Ok _ |- _ =>
        apply insert_emargement_Ok in H as (? & _ & _ & _ & _ & ->) end. exact Hs.
  - pose proof (reading_routes_change_nothing now req st) as Hr.
    do 3 apply Forall_inv_tail in Hr. apply Forall_inv in Hr. rewrite Hr. auto.
Qed.

End Footprint.

(** ** Invariants of the store *)

Section Invariants.
Context {zod : Zod} {bcrypt : Bcrypt} {jsonwebtoken : JsonWebToken} {mysql : MySql}
        {env : Env}.

Lemma fresh_snoc {A} (key : A -> Z) (l : list A) (auto : Z) (r : A) :
  key r = auto ->
  Forall (fun x => key x < auto) l /\ NoDup (key <$> l) ->
  Forall (fun x => key x < auto + 1) (l ++ [r])%list /\
  NoDup (key <$> (l ++ [r])%list).
Proof.
  intros Hr [Hlt Hnd]. split.
  - apply Forall_app. split.
    + eapply Forall_impl; [exact Hlt |]. simpl. intros x Hx. lia.
    + apply Forall_cons. split; [lia | apply Forall_nil; exact I].
  - rewrite fmap_app. apply NoDup_app. split; [exact Hnd |]. split.
    + intros k Hk Hk'. apply list_elem_of_fmap in Hk as (x & -> & Hx).
      rewrite Forall_forall in Hlt. specialize (Hlt x Hx).
      simpl in Hk'. apply list_elem_of_singleton in Hk'. lia.
    + simpl. apply NoDup_singleton.
Qed.

Lemma fresh_filter {A} (key : A -> Z) (P : A -> Prop) `{forall x, Decision (P x)}
    (l : list A) (auto : Z) :
  Forall (fun x => key x < auto) l /\ NoDup (key <$> l) ->
  Forall (fun x => key x < auto) (filter P l) /\ NoDup (key <$> filter P l).
Proof.
  intros [Hlt Hnd]. split.
  - apply Forall_forall. intros x Hx. apply list_elem_of_filter in Hx as [_ Hx].
    rewrite Forall_forall in Hlt. auto.
  - eapply sublist_NoDup; [exact Hnd | apply fmap_sublist, sublist_filter].
Qed.

Lemma overwrite_ids t d id (l : list Session.row) :
  Session.id <$> (overwrite t d id <$> l) = Session.id <$> l.
Proof.
  induction l as [| s l IH]; [reflexivity |]. simpl. f_equal; [| exact IH].
  unfold overwrite. case_bool_decide; reflexivity.
Qed.

Lemma insert_user_keys n e p r st st' :
  insert_user n e p r st = Ok st' -> keys_fresh st -> keys_fresh st'.
Proof.
  intros Hq (Hu & Hs & He).
  apply insert_user_Ok in Hq as (n' & e' & p' & r' & _ & _ & _ & _ & _ & _ & ->).
  split; [| split; assumption]. simpl. apply fresh_snoc; [reflexivity | exact Hu].
Qed.

Lemma insert_session_keys t d f st st' :
  insert_session t d f st = Ok st' -> keys_fresh st -> keys_fresh st'.
Proof.
  intros Hq (Hu & Hs & He).
  apply insert_session_Ok in Hq as (t' & d' & _ & _ & _ & _ & ->).
  split; [assumption | split; [| assumption]]. simpl.
  apply fresh_snoc; [reflexivity | exact Hs].
Qed.

Lemma update_session_keys t d id st st' :
  update_session t d id st = Ok st' -> keys_fresh st -> keys_fresh st'.
Proof.
  intros Hq (Hu & [Hs Hnd] & He).
  apply update_session_Ok in Hq as [_ [[_ ->] | (t' & d' & _ & _ & _ & ->)]];
    [unfold keys_fresh; tauto |].
  split; [assumption | split; [| assumption]]. simpl. split.
  - apply Forall_fmap. eapply Forall_impl; [exact Hs |]. simpl. intros s Hlt.
    unfold overwrite. case_bool_decide; exact Hlt.
  - rewrite overwrite_ids. exact Hnd.
Qed.

Lemma delete_session_keys id st st' :
  delete_session id st = Ok st' -> keys_fresh st -> keys_fresh st'.
Proof.
  intros Hq (Hu & Hs & He).
  apply delete_session_Ok in Hq as [_ [[_ ->] | [_ ->]]];
    [unfold keys_fresh; tauto |].
  split; [assumption |]. simpl. split; apply fresh_filter; assumption.
Qed.

Lemma insert_emargement_keys sid uid v st st' :
  insert_emargement sid uid v st = Ok st' -> keys_fresh st -> keys_fresh st'.
Proof.
  intros Hq (Hu & Hs & He).
  apply insert_emargement_Ok in Hq as (b & _ & _ & _ & _ & ->).
  split; [assumption | split; [assumption |]]. simpl.
  apply fresh_snoc; [reflexivity | exact He].
Qed.

(** X5. The primary keys stay sound: if every stored id is below the
    counter of its table and no id occurs twice, the same holds after any
    request on any route; the ids the routes hand out are never reused. *)
Theorem routes_keep_keys_fresh now req st :
  keys_fresh st -> Forall (fun route => keys_fresh (route req st).2) (routes now).
Proof.
  apply (routes_preserve keys_fresh).
  - exact insert_user_keys.
  - exact insert_session_keys.
  - exact update_session_keys.
  - exact delete_session_keys.
  - exact insert_emargement_keys.
Qed.

Lemma ForallOrdPairs_snoc {A} (R : A -> A -> Prop) (l : list A) (x : A) :
  ForallOrdPairs R l -> Forall (fun a => R a x) l -> ForallOrdPairs R (l ++ [x])%list.
Proof.
  induction 1 as [| a l Ha Hl IH]; intros Hx; simpl.
  - constructor; constructor.
  - apply Forall_cons in Hx as [Hax Hx]. constructor; [| auto].
    apply Forall_app. split; [exact Ha |].
    apply Forall_cons. split; [exact Hax | apply Forall_nil; exact I].
Qed.

Lemma email_taken_false st e :
  email_taken st e = false ->
  Forall (fun v => varchar_eq (User.email v) (JStr e) = false) (users st).
Proof.
  unfold email_taken. induction (users st) as [| v l IH]; simpl; intros Ht.
  - apply Forall_nil. exact I.
  - apply orb_false_iff in Ht as [Hv Hl]. apply Forall_cons. auto.
Qed.

Lemma insert_user_emails n e p r st st' :
  insert_user n e p r st = Ok st' -> emails_distinct st -> emails_distinct st'.
Proof.
  unfold emails_distinct. intros Hq Hs.
  apply insert_user_Ok in Hq as (n' & e' & p' & r' & _ & _ & _ & _ & _ & Ht & ->).
  simpl. apply ForallOrdPairs_snoc; [exact Hs |]. simpl.
  apply email_taken_false. exact Ht.
Qed.

Lemma insert_session_emails t d f st st' :
  insert_session t d f st = Ok st' -> emails_distinct st -> emails_distinct st'.
Proof.
  intros Hq Hs. apply insert_session_Ok in Hq as (t' & d' & _ & _ & _ & _ & ->). exact Hs.
Qed.

Lemma update_session_emails t d id st st' :
  update_session t d id st = Ok st' -> emails_distinct st -> emails_distinct st'.
Proof.
  intros Hq Hs.
  apply update_session_Ok in Hq as [_ [[_ ->] | (t' & d' & _ & _ & _ & ->)]]; exact Hs.
Qed.

Lemma delete_session_emails id st st' :
  delete_session id st = Ok st' -> emails_distinct st -> emails_distinct st'.
Proof.
  intros Hq Hs. apply delete_session_Ok in Hq as [_ [[_ ->] | [_ ->]]]; exact Hs.
Qed.

Lemma insert_emargement_emails sid uid v st st' :
  insert_emargement sid uid v st = Ok st' -> emails_distinct st -> emails_distinct st'.
Proof.
  intros Hq Hs. apply insert_emargement_Ok in Hq as (b & _ & _ & _ & _ & ->). exact Hs.
Qed.

(** X6. The e-mails stay distinct: if no stored user has an e-mail that
    the store finds equal to that of a later one, the same holds after any
    request on any route, so signing up never stores a second user under
    an e-mail the store already holds. *)
Theorem routes_keep_emails_distinct now req st :
  emails_distinct st -> Forall (fun route => emails_distinct (route req st).2) (routes now).
Proof.
  apply (routes_preserve emails_distinct).
  - exact insert_user_emails.
  - exact insert_session_emails.
  - exact update_session_emails.
  - exact delete_session_emails.
  - exact insert_emargement_emails.
Qed.

(** X7. The foreign keys stay sound: if every session points to a stored
    user and every attendance row to a stored session and a stored user,
    the same holds after any request on any route; deleting a session
    takes its attendance rows along, and no route removes a user. *)
Theorem routes_keep_references now req st :
  referential_integrity st ->
  Forall (fun route => referential_integrity (route req st).2) (routes now).
Proof.
  apply (routes_preserve referential_integrity).
  - exact insert_user_integrity.
  - exact insert_session_integrity.
  - exact update_session_integrity.
  - exact delete_session_integrity.
  - exact insert_emargement_integrity.
Qed.

(** X22. Every store that the service reaches from the empty tables, by
    any sequence of requests on its nine routes with the pool failing and
    recovering in between, has sound primary keys, distinct e-mails and
    sound foreign keys. *)
Theorem reachable_stores_are_sound st :
  reachable st -> keys_fresh st /\ emails_distinct st /\ referential_integrity st.
Proof.
  induction 1 as [| st pe _ IH | st now route req _ IH Hroute].
  - split; [| split].
    + unfold keys_fresh. simpl.
      repeat split; first [apply Forall_nil; exact I | apply NoDup_nil; exact I].
    + constructor.
    + split; apply Forall_nil; exact I.
  - exact IH.
  - pose proof (routes_preserve
                  (fun s => keys_fresh s /\ emails_distinct s /\ referential_integrity s))
      as Hstep.
    eapply Forall_forall in Hstep; [exact Hstep | | | | | | exact IH | exact Hroute].
    + intros n e p r s s' Hq (Hk & He & Hr).
      split; [eapply insert_user_keys | split; [eapply insert_user_emails | eapply insert_user_integrity]]; eassumption.
    + intros t d f s s' Hq (Hk & He & Hr).
      split; [eapply insert_session_keys | split; [eapply insert_session_emails | eapply insert_session_integrity]]; eassumption.
    + intros t d id s s' Hq (Hk & He & Hr).
      split; [eapply update_session_keys | split; [eapply update_session_emails | eapply update_session_integrity]]; eassumption.
    + intros id s s' Hq (Hk & He & Hr).
      split; [eapply delete_session_keys | split; [eapply delete_session_emails | eapply delete_session_integrity]]; eassumption.
    + intros sid uid v s s' Hq (Hk & He & Hr).
      split; [eapply insert_emargement_keys | split; [eapply insert_emargement_emails | eapply insert_emargement_integrity]]; eassumption.
Qed.

End Invariants.

(** ** Writing, then reading back *)

Section RoundTrips.
Context {zod : Zod} {bcrypt : Bcrypt} {jsonwebtoken : JsonWebToken} {mysql : MySql}
        {env : Env}.

Lemma create_as_trainer now req st u :
  admitted now req u -> Jwt.role u = "formateur" ->
  POST_sessions now req st =
    match insert_session (prop (body req) "title") (prop (body req) "date")
                         (Jwt.id u) st with
    | Ok st' => (created, st')
    | Err err => (send 400 (Message err), st)
    end.
Proof.
  intros Hin Hrole. unfold POST_sessions.
  rewrite (authenticateJWT_admitted now _ req st u Hin).
  unfold create_session. simpl. rewrite Hrole. reflexivity.
Qed.

Lemma update_as_trainer now req st u :
  admitted now req u -> Jwt.role u = "formateur" ->
  PUT_sessions_id now req st =
    match update_session (prop (body req) "title") (prop (body req) "date")
                         (params_id req) st with
    | Ok st' => (updated, st')
    | Err err => (send 400 (Message err), st)
    end.
Proof.
  intros Hin Hrole. unfold PUT_sessions_id.
  rewrite (authenticateJWT_admitted now _ req st u Hin).
  unfold update_session_handler. simpl. rewrite Hrole. reflexivity.
Qed.

Lemma delete_as_trainer now req st u :
  admitted now req u -> Jwt.role u = "formateur" ->
  DELETE_sessions_id now req st =
    match delete_session (params_id req) st with
    | Ok st' => (deleted, st')
    | Err err => (send 400 (Message err), st)
    end.
Proof.
  intros Hin Hrole. unfold DELETE_sessions_id.
  rewrite (authenticateJWT_admitted now _ req st u Hin).
  unfold delete_session_handler. simpl. rewrite Hrole. reflexivity.
Qed.

Lemma mark_as_student now req st u :
  admitted now req u -> Jwt.role u = "etudiant" ->
  POST_sessions_id_emargement now req st =
    match insert_emargement (params_id req) (Jwt.id u) (prop (body req) "status") st with
    | Ok st' => (marked, st')
    | Err err => (send 400 (Message err), st)
    end.
Proof.
  intros Hin Hrole. unfold POST_sessions_id_emargement.
  rewrite (authenticateJWT_admitted now _ req st u Hin).
  unfold mark_attendance. simpl. rewrite Hrole. reflexivity.
Qed.

Lemma list_as_trainer now req st u :
  admitted now req u -> Jwt.role u = "formateur" -> pool_error st = None ->
  GET_sessions_id_emargement now req st =
    (send 200 (JsonEmargement
                 (filter (fun e => Emargement.session_id e = params_id req)
                         (emargement st))), st).
Proof.
  intros Hin Hrole Hpool. unfold GET_sessions_id_emargement.
  rewrite (authenticateJWT_admitted now _ req st u Hin).
  unfold list_attendance. simpl. rewrite Hrole. simpl.
  unfold select_emargement_by_session, connected. rewrite Hpool. reflexivity.
Qed.

Lemma get_session_by_id req st :
  pool_error st = None ->
  GET_sessions_id req st =
    match filter (fun s => Session.id s = params_id req) (sessions st) with
    | [] => (not_found, st)
    | row :: _ => (send 200 (JsonSession row), st)
    end.
Proof.
  intros Hpool. unfold GET_sessions_id, select_session_by_id, connected.
  rewrite Hpool. reflexivity.
Qed.

Lemma filter_key_above {A} (key : A -> Z) (l : list A) (k : Z) :
  Forall (fun x => key x < k) l -> filter (fun x => key x = k) l = [].
Proof.
  intros Hlt. apply filter_none. eapply Forall_impl; [exact Hlt |].
  simpl. intros x Hx. lia.
Qed.

Lemma filter_unique_key {A} (key : A -> Z) (l : list A) (x : A) :
  NoDup (key <$> l) -> x ∈ l -> filter (fun y => key y = key x) l = [x].
Proof.
  induction l as [| y l IH]; intros Hnd Hx; [inversion Hx |].
  simpl in Hnd. apply NoDup_cons in Hnd as [Hy Hnd].
  rewrite filter_cons. apply elem_of_cons in Hx as [-> | Hx].
  - case_decide; [| congruence]. f_equal. apply filter_none.
    apply Forall_forall. intros z Hz Heq. apply Hy. rewrite <- Heq.
    apply list_elem_of_fmap_2. exact Hz.
  - case_decide as Hk; [| auto].
    exfalso. apply Hy. rewrite Hk. apply list_elem_of_fmap_2. exact Hx.
Qed.

Lemma filter_overwrite_same t d id (l : list Session.row) :
  filter (fun s => Session.id s = id) (overwrite t d id <$> l) =
  overwrite t d id <$> filter (fun s => Session.id s = id) l.
Proof.
  induction l as [| s l IH]; [reflexivity |].
  rewrite fmap_cons, !filter_cons, IH.
  assert (Session.id (overwrite t d id s) = Session.id s) as ->
    by (unfold overwrite; case_bool_decide; reflexivity).
  case_decide; reflexivity.
Qed.

Lemma filter_overwrite_other t d id id' (l : list Session.row) :
  id' <> id ->
  filter (fun s => Session.id s = id') (overwrite t d id <$> l) =
  filter (fun s => Session.id s = id') l.
Proof.
  intros Hne. induction l as [| s l IH]; [reflexivity |].
  rewrite fmap_cons, !filter_cons, IH. unfold overwrite. case_bool_decide as Hs.
  - simpl. repeat case_decide; congruence.
  - reflexivity.
Qed.

(** X8. A session that a trainer creates can be read back: with a title
    and a date that the columns take, a caller whose user row is stored, a
    store that answers and sound keys, POST /sessions is answered 201 and
    appends one row holding the title, the date, the next id and the
    caller's id as its trainer; GET /sessions/:id for that id then answers
    200 with exactly this row, and GET /sessions answers 200 with the old
    rows followed by it. *)
Theorem create_then_get now req st u t d :
  admitted now req u ->
  Jwt.role u = "formateur" ->
  pool_error st = None ->
  user_exists st (Jwt.id u) = true ->
  not_null cast_varchar (prop (body req) "title") = Ok t ->
  not_null cast_date (prop (body req) "date") = Ok d ->
  keys_fresh st ->
  exists st' row,
    row = {| Session.id := sessions_auto st; Session.title := t; Session.date := d;
             Session.formateur_id := Jwt.id u |} /\
    POST_sessions now req st = (created, st') /\
    sessions st' = (sessions st ++ [row])%list /\
    (forall req', params_id req' = sessions_auto st ->
                  GET_sessions_id req' st' = (send 200 (JsonSession row), st')) /\
    (forall req', GET_sessions req' st' =
                    (send 200 (JsonSessions (sessions st ++ [row])), st')).
Proof.
  intros Hin Hrole Hpool Hu Ht Hd (_ & [Hlt _] & _).
  eexists. eexists. split; [reflexivity |]. split; [| split; [| split]].
  - rewrite (create_as_trainer now req st u Hin Hrole).
    unfold insert_session, connected. rewrite Hpool. simpl.
    rewrite Ht. simpl. rewrite Hd. simpl. rewrite Hu. reflexivity.
  - reflexivity.
  - intros req' Hid. rewrite get_session_by_id by exact Hpool. simpl.
    rewrite filter_app, Hid, (filter_key_above Session.id _ _ Hlt). simpl.
    rewrite filter_cons. simpl. case_decide; [reflexivity | congruence].
  - intros req'. unfold GET_sessions, select_sessions, connected. simpl.
    rewrite Hpool. simpl. case_decide as Hlen; [| reflexivity].
    rewrite length_app in Hlen. simpl in Hlen. lia.
Qed.

(** X9. With sound keys and a store that answers, GET /sessions/:id on the
    id of a stored session answers 200 with that very session. *)
Theorem get_returns_the_session req st s :
  pool_error st = None ->
  keys_fresh st ->
  s ∈ sessions st ->
  params_id req = Session.id s ->
  GET_sessions_id req st = (send 200 (JsonSession s), st).
Proof.
  intros Hpool (_ & [_ Hnd] & _) Hs Hid.
  rewrite get_session_by_id by exact Hpool.
  rewrite Hid, (filter_unique_key Session.id _ s Hnd Hs). reflexivity.
Qed.

(** X10. An update can be read back and touches no other session: after a
    trainer's PUT on a stored session, with values the columns take, GET on
    the same id answers 200 with a row that has the id, the new title and
    the new date, and GET on any other id answers what it answered
    before. *)
Theorem update_then_get now req st u t d :
  admitted now req u ->
  Jwt.role u = "formateur" ->
  pool_error st = None ->
  session_exists st (params_id req) = true ->
  not_null cast_varchar (prop (body req) "title") = Ok t ->
  not_null cast_date (prop (body req) "date") = Ok d ->
  exists st',
    PUT_sessions_id now req st = (updated, st') /\
    (forall req', params_id req' = params_id req ->
       exists row, GET_sessions_id req' st' = (send 200 (JsonSession row), st') /\
                   Session.id row = params_id req /\
                   Session.title row = t /\ Session.date row = d) /\
    (forall req', params_id req' <> params_id req ->
       (GET_sessions_id req' st').1 = (GET_sessions_id req' st).1).
Proof.
  intros Hin Hrole Hpool Hex Ht Hd.
  eexists. split; [| split].
  - rewrite (update_as_trainer now req st u Hin Hrole).
    unfold update_session, connected. rewrite Hpool. simpl. rewrite Hex.
    rewrite Ht. simpl. rewrite Hd. reflexivity.
  - intros req' Hid. rewrite get_session_by_id by exact Hpool. simpl.
    rewrite Hid, filter_overwrite_same.
    apply session_exists_true in Hex as (s & Hs & Hs').
    destruct (filter (fun s0 => Session.id s0 = params_id req) (sessions st))
      as [| s0 l] eqn:Hf.
    + exfalso. eapply filter_nil_not_elem_of; [exact Hf | exact Hs' | exact Hs].
    + assert (s0 ∈ filter (fun s0 => Session.id s0 = params_id req) (sessions st))
        as Hs0 by (rewrite Hf; apply list_elem_of_here).
      apply list_elem_of_filter in Hs0 as [Hs0 _].
      simpl. eexists. split; [reflexivity |].
      rewrite (overwrite_hit t d _ s0 Hs0). simpl. auto.
  - intros req' Hne. rewrite !get_session_by_id by exact Hpool. simpl.
    rewrite filter_overwrite_other by exact Hne.
    destruct (filter _ (sessions st)); reflexivity.
Qed.

(** X11. Deleting a stored session removes it for good: a trainer's DELETE
    on the id of a stored session, on a store that answers, is answered
    200; afterwards no session and no attendance row carries that id, GET
    on the id answers 404, every session and attendance row of another id
    is still there, and a second DELETE is answered 200 and changes
    nothing more. *)
Theorem delete_then_gone now req st u :
  admitted now req u ->
  Jwt.role u = "formateur" ->
  pool_error st = None ->
  session_exists st (params_id req) = true ->
  exists st',
    DELETE_sessions_id now req st = (deleted, st') /\
    session_exists st' (params_id req) = false /\
    Forall (fun e => Emargement.session_id e <> params_id req) (emargement st') /\
    (forall req', params_id req' = params_id req ->
                  GET_sessions_id req' st' = (not_found, st')) /\
    (forall s, s ∈ sessions st -> Session.id s <> params_id req -> s ∈ sessions st') /\
    (forall e, e ∈ emargement st -> Emargement.session_id e <> params_id req ->
               e ∈ emargement st') /\
    DELETE_sessions_id now req st' = (deleted, st').
Proof.
  intros Hin Hrole Hpool Hex.
  assert (forall l : list Session.row,
            existsb (fun s => bool_decide (Session.id s = params_id req))
                    (filter (fun s => Session.id s <> params_id req) l) = false) as Hgone.
  { intros l. apply not_true_is_false. rewrite existsb_exists.
    intros (s & Hs & Hid). apply list_elem_of_In, list_elem_of_filter in Hs as [Hne _].
    apply bool_decide_eq_true in Hid. contradiction. }
  eexists. split; [| split; [| split; [| split; [| split; [| split]]]]].
  - rewrite (delete_as_trainer now req st u Hin Hrole).
    unfold delete_session, connected. rewrite Hpool. simpl. rewrite Hex. reflexivity.
  - apply Hgone.
  - simpl. apply Forall_forall. intros e He.
    apply list_elem_of_filter in He as [Hne _]. exact Hne.
  - intros req' Hid. rewrite get_session_by_id by exact Hpool. simpl.
    rewrite Hid, filter_none; [reflexivity |].
    apply Forall_forall. intros s Hs. apply list_elem_of_filter in Hs as [Hne _].
    exact Hne.
  - intros s Hs Hne. simpl. apply list_elem_of_filter. auto.
  - intros e He Hne. simpl. apply list_elem_of_filter. auto.
  - rewrite (delete_as_trainer now req _ u Hin Hrole).
    unfold delete_session, connected. simpl. rewrite Hpool. simpl.
    unfold session_exists. simpl. rewrite Hgone. reflexivity.
Qed.

(** X12. An attendance mark shows up in the trainer's list: after a
    student's mark on a stored session (stored student, status the column
    takes, store that answers), a trainer's GET /sessions/:id/emargement for
    that session answers 200 with the rows it had before followed by the
    new row, which carries the student's id; the list of any other session
    is what it was. *)
Theorem mark_then_list now req st u b now' req' u' :
  admitted now req u ->
  Jwt.role u = "etudiant" ->
  admitted now' req' u' ->
  Jwt.role u' = "formateur" ->
  pool_error st = None ->
  session_exists st (params_id req) = true ->
  user_exists st (Jwt.id u) = true ->
  not_null cast_tinyint (prop (body req) "status") = Ok b ->
  exists st' row,
    row = {| Emargement.id := emargement_auto st;
             Emargement.session_id := params_id req;
             Emargement.etudiant_id := Jwt.id u; Emargement.status := b |} /\
    POST_sessions_id_emargement now req st = (marked, st') /\
    (params_id req' = params_id req ->
       GET_sessions_id_emargement now' req' st' =
         (send 200 (JsonEmargement
                      (filter (fun e => Emargement.session_id e = params_id req)
                              (emargement st) ++ [row])), st')) /\
    (params_id req' <> params_id req ->
       (GET_sessions_id_emargement now' req' st').1 =
       (GET_sessions_id_emargement now' req' st).1).
Proof.
  intros Hin Hrole Hin' Hrole' Hpool Hs Hu Hv.
  eexists. eexists. split; [reflexivity |]. split; [| split].
  - rewrite (mark_as_student now req st u Hin Hrole).
    rewrite (insert_emargement_accepted _ _ _ b st Hpool Hs Hu Hv). reflexivity.
  - intros Hid. rewrite (list_as_trainer now' req' _ u' Hin' Hrole') by exact Hpool.
    simpl. rewrite Hid, filter_app, filter_cons. simpl.
    case_decide; [reflexivity | congruence].
  - intros Hne. rewrite !(list_as_trainer now' req' _ u' Hin' Hrole') by exact Hpool.
    simpl. rewrite filter_app, filter_cons. simpl.
    case_decide; [congruence |]. rewrite app_nil_r. reflexivity.
Qed.

(** X13. Signing up, then logging in: after a signup that is answered 201,
    a login with the same e-mail and password is answered 200 with the
    token that [jwt.sign] returns for the id and role of the new user,
    provided the lookup matches the new row and no older one, bcrypt
    verifies the password against the hash it made, and [jwt.sign]
    returns. *)
Theorem login_after_signup now req req' st n e p r token :
  satisfies_rules (body req) n e p r ->
  (POST_auth_signup req st).1 = registered ->
  prop (body req') "email" = JStr e ->
  prop (body req') "password" = JStr p ->
  Forall (fun v => varchar_eq (User.email v) (JStr e) = false) (users st) ->
  (forall e', cast_varchar (JStr e) = Some e' -> varchar_eq e' (JStr e) = true) ->
  (forall p', cast_varchar (JStr (bcrypt_hash p 10)) = Some p' ->
              bcrypt_compare (JStr p) p' = Ok true) ->
  (forall r', cast_varchar (JStr r) = Some r' ->
              jwt_sign {| Jwt.id := users_auto st; Jwt.role := r';
                          Jwt.iat := None; Jwt.exp := None |}
                       JWT_SECRET {| Jwt.expiresIn := "1h" |} now = Ok token) ->
  (POST_auth_login now req' (POST_auth_signup req st).2).1 = send 200 (JsonToken token).
Proof.
  intros Hrules Hreg He Hp Hold Hfind Hverify Hsign.
  pose (i := {| in_name := n; in_email := e; in_password := p; in_role := r |}).
  assert (userSchema_parse (body req) = Ok i) as Hi
    by (apply userSchema_parse_Ok; exact Hrules).
  revert Hreg. unfold POST_auth_signup. rewrite Hi. simpl.
  destruct (insert_user _ _ _ _ st) as [st' |] eqn:Hq; simpl; [| discriminate].
  intros _.
  apply insert_user_Ok in Hq as (n' & e' & p' & r' & Hn' & He' & Hp' & Hr' & Hpool & _ & ->).
  simpl in He', Hp', Hr'.
  assert (forall (v : string) (w : string),
            match cast_varchar (JStr v) with
            | Some a => Ok a
            | None => Err (SqlError ER_TRUNCATED_WRONG_VALUE)
            end = Ok w -> cast_varchar (JStr v) = Some w) as Hcast.
  { intros v w. destruct (cast_varchar (JStr v)); [intros [= ->]; reflexivity | discriminate]. }
  apply Hcast in He', Hp', Hr'.
  unfold POST_auth_login. rewrite He, Hp.
  unfold select_users_by_email, connected. simpl. rewrite Hpool. simpl.
  rewrite filter_app, (filter_none _ (users st)).
  2:{ eapply Forall_impl; [exact Hold |]. simpl. intros v Hv. congruence. }
  rewrite filter_cons. simpl. rewrite (Hfind e' He').
  case_decide; [| congruence]. simpl.
  rewrite (Hverify p' Hp'). simpl.
  unfold login_claims, login_options. simpl. rewrite (Hsign r' Hr'). reflexivity.
Qed.

End RoundTrips.

(** ** Edges of the guard and of the handlers *)

Section Edges.
Context {zod : Zod} {bcrypt : Bcrypt} {jsonwebtoken : JsonWebToken} {mysql : MySql}
        {env : Env}.

(** X14. The role checks are by exact match: with a token that verifies,
    any role other than "formateur" is answered 403 by the four
    trainer-only routes and any role other than "etudiant" is answered 403
    by the student-only route, so a token carrying any third role is
    answered 403 by all five protected routes; the store is left as it
    was. *)
Theorem other_roles_are_denied now req st u :
  admitted now req u ->
  (Jwt.role u <> "formateur" ->
     POST_sessions now req st = denied st /\
     PUT_sessions_id now req st = denied st /\
     DELETE_sessions_id now req st = denied st /\
     GET_sessions_id_emargement now req st = denied st) /\
  (Jwt.role u <> "etudiant" ->
     POST_sessions_id_emargement now req st = denied st) /\
  (Jwt.role u <> "formateur" -> Jwt.role u <> "etudiant" ->
     Forall (fun route => route req st = denied st) (protected_routes now)).
Proof.
  intros Hin.
  assert (Jwt.role u <> "formateur" ->
          POST_sessions now req st = denied st /\
          PUT_sessions_id now req st = denied st /\
          DELETE_sessions_id now req st = denied st /\
          GET_sessions_id_emargement now req st = denied st) as Htrainer.
  { intros Hne. unfold POST_sessions, PUT_sessions_id, DELETE_sessions_id,
      GET_sessions_id_emargement.
    rewrite !(authenticateJWT_admitted now _ req st u Hin).
    unfold create_session, update_session_handler, delete_session_handler,
      list_attendance. simpl.
    rewrite (role_eqb_neq _ _ Hne). auto. }
  assert (Jwt.role u <> "etudiant" ->
          POST_sessions_id_emargement now req st = denied st) as Hstudent.
  { intros Hne. unfold POST_sessions_id_emargement.
    rewrite (authenticateJWT_admitted now _ req st u Hin).
    unfold mark_attendance. simpl. rewrite (role_eqb_neq _ _ Hne). reflexivity. }
  split; [exact Htrainer |]. split; [exact Hstudent |].
  intros Hf He. destruct (Htrainer Hf) as (H1 & H2 & H3 & H4).
  unfold protected_routes.
  repeat (apply Forall_cons; split); auto.
Qed.

Lemma split_nonempty sep s : split sep s <> [].
Proof.
  destruct s as [| c s]; simpl; [discriminate |].
  destruct (Ascii.eqb c sep); [discriminate |].
  destruct (split sep s); discriminate.
Qed.

(** X15. [split] cuts at every separator and nowhere else: joining the
    pieces with the separator gives the string back, no piece holds the
    separator, and there is always at least one piece. *)
Theorem split_concat sep s :
  String.concat (String sep "") (split sep s) = s /\
  Forall (fun w => forall c, In c (list_ascii_of_string w) -> c <> sep) (split sep s) /\
  split sep s <> [].
Proof.
  split; [| split; [| apply split_nonempty]].
  - induction s as [| c s IH]; [reflexivity |]. simpl.
    destruct (Ascii.eqb_spec c sep) as [-> | Hc].
    + pose proof (split_nonempty sep s) as Hne.
      destruct (split sep s) as [| w ws]; [contradiction |].
      change (String sep (String.concat (String sep "") (w :: ws)) = String sep s).
      rewrite IH. reflexivity.
    + pose proof (split_nonempty sep s) as Hne.
      destruct (split sep s) as [| w ws]; [contradiction |].
      destruct ws as [| w' ws]; rewrite <- IH; reflexivity.
  - induction s as [| c s IH]; simpl.
    + apply Forall_cons. split; [intros c [] | apply Forall_nil; exact I].
    + destruct (Ascii.eqb_spec c sep) as [-> | Hc].
      * apply Forall_cons. split; [intros c [] | exact IH].
      * destruct (split sep s) as [| w ws].
        { apply Forall_cons. split; [| apply Forall_nil; exact I].
          intros c' [<- | []]. exact Hc. }
        apply Forall_cons in IH as [Hw Hws]. apply Forall_cons. split; [| exact Hws].
        intros c' [<- | Hc']; [exact Hc | auto].
Qed.

(** X16. The guard takes the second space-separated piece of the header as
    the token: the first word is not looked at (there is no test for
    "Bearer"), and whatever follows a further space is dropped. *)
Theorem bearer_reads_second_piece id b u scheme token rest :
  spaceless scheme ->
  spaceless token ->
  bearer {| authorization := Some (scheme ++ " " ++ token)%string;
            params_id := id; body := b; user := u |} = Some token /\
  bearer {| authorization := Some (scheme ++ " " ++ token ++ " " ++ rest)%string;
            params_id := id; body := b; user := u |} = Some token.
Proof.
  intros Hs Ht. split.
  - exact (bearer_scheme_token id b u scheme token Hs Ht).
  - change (bearer {| authorization := Some (scheme ++ String " " (token ++ String " " rest))%string;
                      params_id := id; body := b; user := u |} = Some token).
    unfold bearer. cbn [authorization mbind option_bind].
    rewrite (split_scheme_token " "%char scheme) by exact Hs.
    rewrite (split_scheme_token " "%char token) by exact Ht.
    reflexivity.
Qed.

(** X17. Headers that carry no token are answered 403 "Access Denied"
    without the handler being run: no header at all, a single word, and a
    word followed by two spaces (the second piece is then empty, even when
    a token follows). *)
Theorem tokenless_headers_are_denied now next id b u st word rest :
  spaceless word ->
  authenticateJWT now next
    {| authorization := None; params_id := id; body := b; user := u |} st
    = denied st /\
  authenticateJWT now next
    {| authorization := Some word; params_id := id; body := b; user := u |} st
    = denied st /\
  authenticateJWT now next
    {| authorization := Some (word ++ "  " ++ rest)%string;
       params_id := id; body := b; user := u |} st
    = denied st.
Proof.
  intros Hw. unfold denied. split; [| split].
  - apply authenticateJWT_absent. left. reflexivity.
  - apply authenticateJWT_absent. left. exact (bearer_scheme_only id b u word Hw).
  - apply authenticateJWT_absent. right.
    change (bearer {| authorization := Some (word ++ String " " (String " " rest))%string;
                      params_id := id; body := b; user := u |} = Some "").
    unfold bearer. cbn [authorization mbind option_bind].
    rewrite (split_scheme_token " "%char word) by exact Hw.
    reflexivity.
Qed.

(** X18. A login whose body has no e-mail (or a null one) is answered 401
    like any unknown e-mail, whatever the password field holds, when the
    store answers: NULL matches no row, so [bcrypt.compare] is not
    reached. *)
Theorem login_without_email now req st :
  missing (prop (body req) "email") ->
  pool_error st = None ->
  POST_auth_login now req st = (credentials_refused, st).
Proof.
  intros Hm Hpool. unfold POST_auth_login, select_users_by_email, connected.
  rewrite Hpool. simpl. destruct Hm as [-> | ->]; reflexivity.
Qed.

(** X19. Fields that the body does not carry are refused by the store, not
    by the handlers: on a store that answers, a trainer's POST /sessions
    without a title or a date, a trainer's PUT on a stored session without
    a title or a date, and a student's mark without a status are answered
    400 with the store's error and change nothing. *)
Theorem missing_fields_are_refused now req st u :
  admitted now req u ->
  pool_error st = None ->
  (Jwt.role u = "formateur" ->
   missing (prop (body req) "title") \/ missing (prop (body req) "date") ->
     (exists err, POST_sessions now req st = (send 400 (Message (SqlError err)), st)) /\
     (session_exists st (params_id req) = true ->
        exists err,
          PUT_sessions_id now req st = (send 400 (Message (SqlError err)), st))) /\
  (Jwt.role u = "etudiant" ->
   missing (prop (body req) "status") ->
     POST_sessions_id_emargement now req st
       = (send 400 (Message (SqlError ER_BAD_NULL_ERROR)), st)).
Proof.
  intros Hin Hpool.
  assert (forall {A} (cast : JsVal -> option A) v,
            missing v -> not_null cast v = Err (SqlError ER_BAD_NULL_ERROR)) as Hnull.
  { intros A cast v [-> | ->]; reflexivity. }
  assert (forall {A} (cast : JsVal -> option A) v,
            (exists a, not_null cast v = Ok a) \/
            (exists err, not_null cast v = Err (SqlError err))) as Hcases.
  { intros A cast v. unfold not_null. destruct v; eauto; destruct (cast _); eauto. }
  split.
  - intros Hrole Hm. split.
    + rewrite (create_as_trainer now req st u Hin Hrole).
      unfold insert_session, connected. rewrite Hpool. simpl.
      destruct Hm as [Hm | Hm].
      * rewrite (Hnull _ _ _ Hm). simpl. eauto.
      * destruct (Hcases _ cast_varchar (prop (body req) "title")) as [[t ->] | [err ->]];
          simpl; [| eauto].
        rewrite (Hnull _ _ _ Hm). simpl. eauto.
    + intros Hex. rewrite (update_as_trainer now req st u Hin Hrole).
      unfold update_session, connected. rewrite Hpool. simpl. rewrite Hex.
      destruct Hm as [Hm | Hm].
      * rewrite (Hnull _ _ _ Hm). simpl. eauto.
      * destruct (Hcases _ cast_varchar (prop (body req) "title")) as [[t ->] | [err ->]];
          simpl; [| eauto].
        rewrite (Hnull _ _ _ Hm). simpl. eauto.
  - intros Hrole Hm. rewrite (mark_as_student now req st u Hin Hrole).
    unfold insert_emargement, connected. rewrite Hpool. simpl.
    rewrite (Hnull _ _ _ Hm). reflexivity.
Qed.

End Edges.

(** ** Repeating a request, and what the token is not checked against *)

Section Repeats.
Context {zod : Zod} {bcrypt : Bcrypt} {jsonwebtoken : JsonWebToken} {mysql : MySql}
        {env : Env}.









Lemma guard_commutes (f : Store -> Store) now next req st :
  (forall r s, next r (f s) = ((next r s).1, f (next r s).2)) ->
  authenticateJWT now next req (f st)
  = ((authenticateJWT now next req st).1, f (authenticateJWT now next req st).2).
Proof.
  intros Hnext. unfold authenticateJWT.
  destruct (bearer req) as [token |]; [| reflexivity].
  case_decide; [reflexivity |].
  destruct (jwt_verify token JWT_SECRET now); [apply Hnext | reflexivity].
Qed.

(** X21. Reading and managing sessions never consults the users table: for
    the two public reads and for PUT, DELETE and the attendance list behind
    the guard, replacing the users table by any other changes neither the
    answer nor what happens to the other tables.  In particular a token
    that verifies keeps working on these routes when its user row is
    gone. *)
Theorem sessions_routes_ignore_users now req st us auto :
  Forall (fun route =>
            route req (set_users st us auto)
            = ((route req st).1, set_users (route req st).2 us auto))
         (user_blind_routes now).
Proof.
  unfold user_blind_routes.
  repeat (apply Forall_cons; split); try (apply Forall_nil; exact I).
  - unfold GET_sessions, select_sessions, connected. simpl.
    destruct (pool_error st); simpl; [reflexivity |]. case_decide; reflexivity.
  - unfold GET_sessions_id, select_session_by_id, connected. simpl.
    destruct (pool_error st); simpl; [reflexivity |].
    destruct (filter _ (sessions st)); reflexivity.
  - unfold PUT_sessions_id. apply (guard_commutes (fun s => set_users s us auto)).
    clear. intros r s. unfold update_session_handler.
    destruct (user r) as [u |]; [| reflexivity].
    destruct (negb _); [reflexivity |].
    unfold update_session, connected. simpl.
    destruct (pool_error s); simpl; [reflexivity |].
    change (session_exists (set_users s us auto) (params_id r))
      with (session_exists s (params_id r)).
    destruct (session_exists s (params_id r)); [| reflexivity].
    destruct (not_null cast_varchar _); simpl; [| reflexivity].
    destruct (not_null cast_date _); reflexivity.
  - unfold DELETE_sessions_id. apply (guard_commutes (fun s => set_users s us auto)).
    clear. intros r s. unfold delete_session_handler.
    destruct (user r) as [u |]; [| reflexivity].
    destruct (negb _); [reflexivity |].
    unfold delete_session, connected. simpl.
    destruct (pool_error s); simpl; [reflexivity |].
    change (session_exists (set_users s us auto) (params_id r))
      with (session_exists s (params_id r)).
    destruct (session_exists s (params_id r)); reflexivity.
  - unfold GET_sessions_id_emargement.
    apply (guard_commutes (fun s => set_users s us auto)).
    clear. intros r s. unfold list_attendance.
    destruct (user r) as [u |]; [| reflexivity].
    destruct (negb _); [reflexivity |].
    unfold select_emargement_by_session, connected. simpl.
    destruct (pool_error s); reflexivity.
Qed.

End Repeats.

(** ** The statements on the test doubles *)

Section OnFixture.
#[local] Existing Instance Fixture.zod.
#[local] Existing Instance Fixture.bcrypt.
#[local] Existing Instance Fixture.jsonwebtoken.
#[local] Existing Instance Fixture.mysql.
#[local] Existing Instance Fixture.env.

Lemma admitted_trainer id fields :
  admitted 0 (Fixture.as_trainer id fields) Fixture.trainer.
Proof. exists "t1". repeat split. discriminate. Defined.

Lemma admitted_other_trainer id fields :
  admitted 0 (Fixture.as_other_trainer id fields) Fixture.other_trainer.
Proof. exists "t3". repeat split. discriminate. Defined.

Lemma admitted_student id fields :
  admitted 0 (Fixture.as_student id fields) Fixture.student.
Proof. exists "t2". repeat split. discriminate. Defined.

Lemma login_failures_indistinguishable_witness :
  POST_auth_login 0 (Fixture.login_lea "wrong") Fixture.empty_store
    = (credentials_refused, Fixture.empty_store) /\
  POST_auth_login 0 (Fixture.login_lea "wrong") Fixture.store
    = (credentials_refused, Fixture.store) /\
  (POST_auth_login 0 (Fixture.login_lea "wrong") Fixture.empty_store).1
    = (POST_auth_login 0 (Fixture.login_lea "wrong") Fixture.store).1.
Proof.
  apply (login_failures_indistinguishable 0 (Fixture.login_lea "wrong")
           Fixture.empty_store Fixture.store Fixture.lea []).
  - vm_compute. reflexivity.
  - vm_compute. reflexivity.
  - vm_compute. reflexivity.
Defined.

Lemma login_rejected_password_tells_apart_witness :
  POST_auth_login 0 (Fixture.request None 0 [("email", JStr "lea@ecole.fr")])
    Fixture.empty_store
    = (credentials_refused, Fixture.empty_store) /\
  POST_auth_login 0 (Fixture.request None 0 [("email", JStr "lea@ecole.fr")])
    Fixture.store
    = (send 500 (Message (LibError "data and hash arguments required")),
       Fixture.store) /\
  (POST_auth_login 0 (Fixture.request None 0 [("email", JStr "lea@ecole.fr")])
     Fixture.empty_store).1
  <> (POST_auth_login 0 (Fixture.request None 0 [("email", JStr "lea@ecole.fr")])
        Fixture.store).1.
Proof.
  apply (login_rejected_password_tells_apart 0
           (Fixture.request None 0 [("email", JStr "lea@ecole.fr")])
           Fixture.empty_store Fixture.store Fixture.lea []).
  - vm_compute. reflexivity.
  - vm_compute. reflexivity.
  - vm_compute. reflexivity.
Defined.

Lemma login_success_token_witness :
  POST_auth_login 0 (Fixture.login_lea "qwerty2") Fixture.store
    = (send 200 (JsonToken "t2"), Fixture.store).
Proof.
  apply (proj2 (login_success_token 0 (Fixture.login_lea "qwerty2") Fixture.store)
           Fixture.lea []).
  - vm_compute. reflexivity.
  - vm_compute. reflexivity.
  - vm_compute. reflexivity.
Defined.

Lemma role_check_witness :
  POST_sessions 0 (Fixture.as_student 1 []) Fixture.store = denied Fixture.store /\
  POST_sessions_id_emargement 0 (Fixture.as_trainer 1 []) Fixture.store
    = denied Fixture.store.
Proof.
  split.
  - apply (proj1 (role_check 0 (Fixture.as_student 1 []) Fixture.store Fixture.student
                    (admitted_student 1 [])) eq_refl).
  - apply (proj2 (role_check 0 (Fixture.as_trainer 1 []) Fixture.store Fixture.trainer
                    (admitted_trainer 1 [])) eq_refl).
Defined.

Lemma guard_rejects_or_attaches_witness :
  (forall next,
     status_of (authenticateJWT 0 next (Fixture.request (Some "Bearer") 1 [])
                  Fixture.store).1 = Some 403) /\
  (forall next,
     status_of (authenticateJWT 3600 next (Fixture.as_trainer 1 []) Fixture.store).1
     = Some 403) /\
  (forall next,
     authenticateJWT 0 next (Fixture.as_trainer 1 []) Fixture.store
     = next (with_user (Fixture.as_trainer 1 []) Fixture.trainer) Fixture.store).
Proof.
  split; [| split].
  - intros next.
    apply (proj1 (guard_rejects_or_attaches 0 (Fixture.request (Some "Bearer") 1 [])
                    Fixture.store) (or_introl eq_refl)).
  - intros next.
    apply (proj1 (guard_rejects_or_attaches 3600 (Fixture.as_trainer 1 []) Fixture.store)).
    right. right. exists "t1", (LibError "jwt expired"). split; reflexivity.
  - intros next.
    apply (proj2 (guard_rejects_or_attaches 0 (Fixture.as_trainer 1 []) Fixture.store)
             Fixture.trainer (admitted_trainer 1 [])).
Defined.

Lemma get_sessions_empty_is_404_witness :
  GET_sessions (Fixture.request None 0 []) Fixture.empty_store
    = (send 404 (Text "Session not found"), Fixture.empty_store) /\
  GET_sessions (Fixture.request None 0 []) Fixture.store
    = (send 200 (JsonSessions [Fixture.maths]), Fixture.store).
Proof.
  split.
  - apply (proj1 (get_sessions_empty_is_404 (Fixture.request None 0 [])
                    Fixture.empty_store) eq_refl). reflexivity.
  - apply (proj1 (get_sessions_empty_is_404 (Fixture.request None 0 []) Fixture.store)
             eq_refl). discriminate.
Defined.

Lemma rules_kept name email password role :
  name <> "" -> zod_email email = true -> (6 <= js_length password)%nat ->
  role = "formateur" \/ role = "etudiant" ->
  satisfies_rules (body (Fixture.signup name email password role))
                  name email password role.
Proof. intros Hn He Hp Hr. repeat split; assumption. Defined.

Lemma signup_duplicate_email_refused :
  ~ signup_as_stated (Fixture.signup "Lea" "lea@ecole.fr" "azerty3" "etudiant")
      Fixture.store.
Proof.
  intros [_ Hgood].
  destruct (Hgood "Lea" "lea@ecole.fr" "azerty3" "etudiant") as [Hanswer _].
  - apply rules_kept; [discriminate | reflexivity | vm_compute; lia | right; reflexivity].
  - vm_compute in Hanswer. discriminate Hanswer.
Qed.

Lemma signup_validates_then_inserts_witness :
  ((POST_auth_signup (Fixture.signup "Tom" "tom@ecole.fr" "azerty3" "etudiant")
      Fixture.store).1 = registered /\
   users (POST_auth_signup (Fixture.signup "Tom" "tom@ecole.fr" "azerty3" "etudiant")
            Fixture.store).2
   = [Fixture.prof; Fixture.lea;
      {| User.id := 4; User.name := "Tom"; User.email := "tom@ecole.fr";
         User.password := "$2b$10$azerty3"; User.role := "etudiant" |}]) /\
  POST_auth_signup (Fixture.signup "Lea" "lea@ecole.fr" "azerty3" "etudiant")
    Fixture.store
  = (send 400 (Message (SqlError ER_DUP_ENTRY)), Fixture.store).
Proof.
  split.
  - assert (satisfies_rules
              (body (Fixture.signup "Tom" "tom@ecole.fr" "azerty3" "etudiant"))
              "Tom" "tom@ecole.fr" "azerty3" "etudiant") as Hrules
      by (apply rules_kept;
          [discriminate | reflexivity | vm_compute; lia | right; reflexivity]).
    assert (cast_varchar (JStr "Tom") = Some "Tom") as Hn by reflexivity.
    assert (cast_varchar (JStr "tom@ecole.fr") = Some "tom@ecole.fr") as He
      by reflexivity.
    assert (cast_varchar (JStr (bcrypt_hash "azerty3" 10)) = Some "$2b$10$azerty3")
      as Hp by reflexivity.
    assert (cast_varchar (JStr "etudiant") = Some "etudiant") as Hr by reflexivity.
    destruct (proj1 (proj2 (signup_validates_then_inserts
                              (Fixture.signup "Tom" "tom@ecole.fr" "azerty3" "etudiant")
                              Fixture.store)
                       "Tom" "tom@ecole.fr" "azerty3" "etudiant"
                       "Tom" "tom@ecole.fr" "$2b$10$azerty3" "etudiant"
                       Hrules eq_refl Hn He Hp Hr) eq_refl)
      as (Hall & Husers & _).
    split; [rewrite Hall; reflexivity | exact Husers].
  - apply (proj2 (signup_validates_then_inserts
                    (Fixture.signup "Lea" "lea@ecole.fr" "azerty3" "etudiant")
                    Fixture.store)
             "Lea" "lea@ecole.fr" "azerty3" "etudiant"
             "Lea" "lea@ecole.fr" "$2b$10$azerty3" "etudiant");
      try reflexivity.
    apply rules_kept; [discriminate | reflexivity | vm_compute; lia | right; reflexivity].
Defined.

Lemma mark_unknown_session_refused :
  ~ marks_twice_as_stated 0 (Fixture.as_student 99 [("status", JBool true)])
      Fixture.store.
Proof.
  intros (st1 & st2 & r1 & r2 & Hfirst & _).
  vm_compute in Hfirst. discriminate Hfirst.
Qed.

Lemma mark_twice_two_rows_witness :
  exists st1 st2 r1 r2,
    POST_sessions_id_emargement 0 (Fixture.as_student 1 [("status", JBool true)])
      Fixture.store = (marked, st1) /\
    POST_sessions_id_emargement 0 (Fixture.as_student 1 [("status", JBool true)]) st1
      = (marked, st2) /\
    emargement st2 = [r1; r2] /\ r1 <> r2.
Proof.
  assert (not_null cast_tinyint
            (prop (body (Fixture.as_student 1 [("status", JBool true)])) "status")
          = Ok 1) as Hstatus by reflexivity.
  destruct (mark_twice_two_rows 0 (Fixture.as_student 1 [("status", JBool true)])
              Fixture.store Fixture.student 1 (admitted_student 1 _)
              eq_refl eq_refl eq_refl eq_refl Hstatus)
    as (st1 & st2 & r1 & r2 & H1 & H2 & H3 & H4 & _).
  exists st1, st2, r1, r2. auto.
Defined.

Lemma any_trainer_updates_any_session_witness :
  Jwt.id Fixture.other_trainer <> Session.formateur_id Fixture.maths /\
  (PUT_sessions_id 0 (Fixture.as_other_trainer 1 Fixture.algebra) Fixture.store).1
    = updated /\
  sessions (PUT_sessions_id 0 (Fixture.as_other_trainer 1 Fixture.algebra)
              Fixture.store).2
  = [{| Session.id := 1; Session.title := "Algebra"; Session.date := "2025-02-01";
        Session.formateur_id := 1 |}].
Proof.
  split; [discriminate |].
  assert (not_null cast_varchar
            (prop (body (Fixture.as_other_trainer 1 Fixture.algebra)) "title")
          = Ok "Algebra") as Ht by reflexivity.
  assert (not_null cast_date
            (prop (body (Fixture.as_other_trainer 1 Fixture.algebra)) "date")
          = Ok "2025-02-01") as Hd by reflexivity.
  destruct (any_trainer_updates_any_session 0
              (Fixture.as_other_trainer 1 Fixture.algebra)
              Fixture.store Fixture.other_trainer Fixture.maths "Algebra" "2025-02-01"
              (admitted_other_trainer 1 _) eq_refl eq_refl
              (list_elem_of_here _ _) eq_refl Ht Hd)
    as (Hput & Hsessions & _).
  split; [rewrite Hput; reflexivity | exact Hsessions].
Defined.

Lemma fixture_integrity : referential_integrity Fixture.store.
Proof.
  split.
  - apply Forall_cons. split; [reflexivity | apply Forall_nil; exact I].
  - apply Forall_nil. exact I.
Defined.

Lemma attendance_list_may_be_empty_witness :
  GET_sessions_id_emargement 0 (Fixture.as_trainer 99 []) Fixture.store
  = (send 200 (JsonEmargement []), Fixture.store).
Proof.
  apply (proj2 (proj2 (attendance_list_may_be_empty 0 (Fixture.as_trainer 99 [])
                         Fixture.store Fixture.trainer (admitted_trainer 99 [])
                         eq_refl eq_refl))).
  - exact fixture_integrity.
  - reflexivity.
Defined.

Lemma update_delete_unknown_id_succeed_witness :
  PUT_sessions_id 0 (Fixture.as_trainer 99 []) Fixture.store = (updated, Fixture.store) /\
  DELETE_sessions_id 0 (Fixture.as_trainer 99 []) Fixture.store
    = (deleted, Fixture.store) /\
  GET_sessions_id (Fixture.as_trainer 99 []) Fixture.store = (not_found, Fixture.store).
Proof.
  apply (update_delete_unknown_id_succeed 0 (Fixture.as_trainer 99 []) Fixture.store
           Fixture.trainer (admitted_trainer 99 []) eq_refl eq_refl eq_refl).
Defined.

(** A few more requests, run on the doubles. *)

Example login_without_password_stored_email :
  POST_auth_login 0 (Fixture.request None 0 [("email", JStr "lea@ecole.fr")])
    Fixture.store
  = (send 500 (Message (LibError "data and hash arguments required")), Fixture.store).
Proof. vm_compute. reflexivity. Qed.

Example login_without_password_unknown_email :
  POST_auth_login 0 (Fixture.request None 0 [("email", JStr "tom@ecole.fr")])
    Fixture.store
  = (credentials_refused, Fixture.store).
Proof. vm_compute. reflexivity. Qed.

Example update_without_title :
  PUT_sessions_id 0 (Fixture.as_trainer 1 [("date", JStr "2025-02-01")]) Fixture.store
  = (send 400 (Message (SqlError ER_BAD_NULL_ERROR)), Fixture.store).
Proof. vm_compute. reflexivity. Qed.

Example mark_without_status :
  POST_sessions_id_emargement 0 (Fixture.as_student 1 []) Fixture.store
  = (send 400 (Message (SqlError ER_BAD_NULL_ERROR)), Fixture.store).
Proof. vm_compute. reflexivity. Qed.

Example delete_takes_attendance_along :
  let marked_once :=
    (POST_sessions_id_emargement 0 (Fixture.as_student 1 [("status", JBool true)])
       Fixture.store).2 in
  List.length (emargement marked_once) = 1%nat /\
  emargement (DELETE_sessions_id 0 (Fixture.as_trainer 1 []) marked_once).2 = [] /\
  sessions (DELETE_sessions_id 0 (Fixture.as_trainer 1 []) marked_once).2 = [].
Proof. vm_compute. auto. Qed.

Example signup_then_login :
  let st := (POST_auth_signup
               (Fixture.signup "Tom" "tom@ecole.fr" "azerty3" "formateur")
               Fixture.store).2 in
  (POST_auth_login 0
     (Fixture.request None 0 [("email", JStr "tom@ecole.fr");
                              ("password", JStr "azerty3")]) st).1
  = send 200 (JsonToken "t3").
Proof. vm_compute. reflexivity. Qed.

Lemma fixture_keys_fresh : keys_fresh Fixture.store.
Proof.
  unfold keys_fresh. simpl. repeat split.
  - repeat (apply Forall_cons; split; [reflexivity |]). apply Forall_nil. exact I.
  - apply NoDup_cons. split; [| apply NoDup_singleton].
    intros Hin. apply list_elem_of_singleton in Hin. discriminate Hin.
  - repeat (apply Forall_cons; split; [reflexivity |]). apply Forall_nil. exact I.
  - apply NoDup_singleton.
  - apply Forall_nil. exact I.
  - apply NoDup_nil. exact I.
Defined.

Lemma fixture_emails_distinct : emails_distinct Fixture.store.
Proof.
  unfold emails_distinct. simpl. constructor.
  - apply Forall_cons. split; [reflexivity | apply Forall_nil; exact I].
  - constructor; constructor.
Defined.

Lemma spaceless_Bearer : spaceless "Bearer".
Proof.
  intros c Hc. simpl in Hc.
  repeat (destruct Hc as [<- | Hc]; [discriminate |]). contradiction.
Defined.

Lemma spaceless_t1 : spaceless "t1".
Proof.
  intros c Hc. simpl in Hc.
  repeat (destruct Hc as [<- | Hc]; [discriminate |]). contradiction.
Defined.

Lemma routes_keep_keys_fresh_witness :
  Forall (fun route =>
            keys_fresh (route (Fixture.as_trainer 1 Fixture.algebra) Fixture.store).2)
         (routes 0).
Proof.
  apply (routes_keep_keys_fresh 0 (Fixture.as_trainer 1 Fixture.algebra) Fixture.store).
  exact fixture_keys_fresh.
Defined.

Lemma routes_keep_emails_distinct_witness :
  Forall (fun route =>
            emails_distinct
              (route (Fixture.signup "Tom" "tom@ecole.fr" "azerty3" "etudiant")
                 Fixture.store).2)
         (routes 0).
Proof.
  apply (routes_keep_emails_distinct 0
           (Fixture.signup "Tom" "tom@ecole.fr" "azerty3" "etudiant") Fixture.store).
  exact fixture_emails_distinct.
Defined.

Lemma routes_keep_references_witness :
  Forall (fun route =>
            referential_integrity (route (Fixture.as_trainer 1 []) Fixture.store).2)
         (routes 0).
Proof.
  apply (routes_keep_references 0 (Fixture.as_trainer 1 []) Fixture.store).
  exact fixture_integrity.
Defined.

Lemma create_then_get_witness :
  exists st',
    POST_sessions 0 (Fixture.as_trainer 0 Fixture.algebra) Fixture.store = (created, st') /\
    GET_sessions_id (Fixture.request None 2 []) st'
    = (send 200 (JsonSession {| Session.id := 2; Session.title := "Algebra";
                                Session.date := "2025-02-01";
                                Session.formateur_id := 1 |}), st').
Proof.
  assert (not_null cast_varchar (prop (body (Fixture.as_trainer 0 Fixture.algebra)) "title")
          = Ok "Algebra") as Ht by reflexivity.
  assert (not_null cast_date (prop (body (Fixture.as_trainer 0 Fixture.algebra)) "date")
          = Ok "2025-02-01") as Hd by reflexivity.
  destruct (create_then_get 0 (Fixture.as_trainer 0 Fixture.algebra) Fixture.store
              Fixture.trainer "Algebra" "2025-02-01" (admitted_trainer 0 _)
              eq_refl eq_refl eq_refl Ht Hd fixture_keys_fresh)
    as (st' & row & -> & Hpost & _ & Hget & _).
  exists st'. split; [exact Hpost |]. apply Hget. reflexivity.
Defined.

Lemma get_returns_the_session_witness :
  GET_sessions_id (Fixture.request None 1 []) Fixture.store
  = (send 200 (JsonSession Fixture.maths), Fixture.store).
Proof.
  apply (get_returns_the_session (Fixture.request None 1 []) Fixture.store Fixture.maths
           eq_refl fixture_keys_fresh).
  - apply list_elem_of_here.
  - reflexivity.
Defined.

Lemma update_then_get_witness :
  exists st' row,
    PUT_sessions_id 0 (Fixture.as_other_trainer 1 Fixture.algebra) Fixture.store
      = (updated, st') /\
    GET_sessions_id (Fixture.request None 1 []) st' = (send 200 (JsonSession row), st') /\
    Session.title row = "Algebra" /\ Session.date row = "2025-02-01".
Proof.
  assert (not_null cast_varchar
            (prop (body (Fixture.as_other_trainer 1 Fixture.algebra)) "title")
          = Ok "Algebra") as Ht by reflexivity.
  assert (not_null cast_date
            (prop (body (Fixture.as_other_trainer 1 Fixture.algebra)) "date")
          = Ok "2025-02-01") as Hd by reflexivity.
  destruct (update_then_get 0 (Fixture.as_other_trainer 1 Fixture.algebra) Fixture.store
              Fixture.other_trainer "Algebra" "2025-02-01" (admitted_other_trainer 1 _)
              eq_refl eq_refl eq_refl Ht Hd)
    as (st' & Hput & Hget & _).
  destruct (Hget (Fixture.request None 1 []) eq_refl) as (row & Hrow & _ & Htitle & Hdate).
  exists st', row. auto.
Defined.

Lemma delete_then_gone_witness :
  exists st',
    DELETE_sessions_id 0 (Fixture.as_trainer 1 []) Fixture.store = (deleted, st') /\
    GET_sessions_id (Fixture.request None 1 []) st' = (not_found, st') /\
    DELETE_sessions_id 0 (Fixture.as_trainer 1 []) st' = (deleted, st').
Proof.
  destruct (delete_then_gone 0 (Fixture.as_trainer 1 []) Fixture.store Fixture.trainer
              (admitted_trainer 1 []) eq_refl eq_refl eq_refl)
    as (st' & Hdel & _ & _ & Hget & _ & _ & Hagain).
  exists st'. split; [exact Hdel |]. split; [| exact Hagain].
  apply Hget. reflexivity.
Defined.

Lemma mark_then_list_witness :
  exists st',
    POST_sessions_id_emargement 0 (Fixture.as_student 1 [("status", JBool true)])
      Fixture.store = (marked, st') /\
    GET_sessions_id_emargement 0 (Fixture.as_trainer 1 []) st'
    = (send 200 (JsonEmargement
                   [{| Emargement.id := 1; Emargement.session_id := 1;
                       Emargement.etudiant_id := 2; Emargement.status := 1 |}]), st').
Proof.
  assert (not_null cast_tinyint
            (prop (body (Fixture.as_student 1 [("status", JBool true)])) "status")
          = Ok 1) as Hstatus by reflexivity.
  destruct (mark_then_list 0 (Fixture.as_student 1 [("status", JBool true)])
              Fixture.store Fixture.student 1 0 (Fixture.as_trainer 1 [])
              Fixture.trainer (admitted_student 1 _) eq_refl (admitted_trainer 1 [])
              eq_refl eq_refl eq_refl eq_refl Hstatus)
    as (st' & row & -> & Hmark & Hlist & _).
  exists st'. split; [exact Hmark |]. apply Hlist. reflexivity.
Defined.

Lemma login_after_signup_witness :
  (POST_auth_login 0
     (Fixture.request None 0 [("email", JStr "tom@ecole.fr");
                              ("password", JStr "azerty3")])
     (POST_auth_signup (Fixture.signup "Tom" "tom@ecole.fr" "azerty3" "formateur")
        Fixture.store).2).1
  = send 200 (JsonToken "t3").
Proof.
  apply (login_after_signup 0
           (Fixture.signup "Tom" "tom@ecole.fr" "azerty3" "formateur")
           (Fixture.request None 0 [("email", JStr "tom@ecole.fr");
                                    ("password", JStr "azerty3")])
           Fixture.store "Tom" "tom@ecole.fr" "azerty3" "formateur" "t3").
  - apply rules_kept; [discriminate | reflexivity | vm_compute; lia | left; reflexivity].
  - vm_compute. reflexivity.
  - reflexivity.
  - reflexivity.
  - repeat (apply Forall_cons; split; [reflexivity |]). apply Forall_nil. exact I.
  - intros e' [= <-]. reflexivity.
  - intros p' [= <-]. reflexivity.
  - intros r' [= <-]. reflexivity.
Defined.

Lemma admitted_guest id fields :
  admitted (jsonwebtoken := Fixture.jsonwebtoken_guest) 0 (Fixture.as_guest id fields)
    Fixture.guest.
Proof. exists "t4". repeat split. discriminate. Defined.

Lemma other_roles_are_denied_witness :
  Forall (fun route => route (Fixture.as_guest 1 Fixture.algebra) Fixture.store
                       = denied Fixture.store)
         (protected_routes (jsonwebtoken := Fixture.jsonwebtoken_guest) 0).
Proof.
  apply (proj2 (proj2 (other_roles_are_denied (jsonwebtoken := Fixture.jsonwebtoken_guest)
                         0 (Fixture.as_guest 1 Fixture.algebra) Fixture.store
                         Fixture.guest (admitted_guest 1 _))));
    discriminate.
Defined.

Lemma bearer_reads_second_piece_witness :
  bearer (Fixture.request (Some "Bearer t1") 1 []) = Some "t1" /\
  bearer (Fixture.request (Some "Bearer t1 and more") 1 []) = Some "t1".
Proof.
  exact (bearer_reads_second_piece 1 (list_to_map []) None "Bearer" "t1" "and more"
           spaceless_Bearer spaceless_t1).
Defined.

Lemma tokenless_headers_are_denied_witness :
  POST_sessions 0 (Fixture.request (Some "Bearer  t1") 1 []) Fixture.store
  = denied Fixture.store.
Proof.
  exact (proj2 (proj2 (tokenless_headers_are_denied 0 create_session 1 (list_to_map [])
                         None Fixture.store "Bearer" "t1" spaceless_Bearer))).
Defined.

Lemma login_without_email_witness :
  POST_auth_login 0 (Fixture.request None 0 [("password", JStr "qwerty2")]) Fixture.store
  = (credentials_refused, Fixture.store).
Proof.
  apply (login_without_email 0 (Fixture.request None 0 [("password", JStr "qwerty2")])
           Fixture.store).
  - left. reflexivity.
  - reflexivity.
Defined.

Lemma missing_fields_are_refused_witness :
  (exists err,
     POST_sessions 0 (Fixture.as_trainer 1 [("title", JStr "Algebra")]) Fixture.store
     = (send 400 (Message (SqlError err)), Fixture.store)) /\
  POST_sessions_id_emargement 0 (Fixture.as_student 1 []) Fixture.store
  = (send 400 (Message (SqlError ER_BAD_NULL_ERROR)), Fixture.store).
Proof.
  split.
  - apply (proj1 (missing_fields_are_refused 0
                    (Fixture.as_trainer 1 [("title", JStr "Algebra")]) Fixture.store
                    Fixture.trainer (admitted_trainer 1 _) eq_refl)); [reflexivity |].
    right. left. reflexivity.
  - apply (proj2 (missing_fields_are_refused 0 (Fixture.as_student 1 []) Fixture.store
                    Fixture.student (admitted_student 1 _) eq_refl)); [reflexivity |].
    left. reflexivity.
Defined.

Lemma reachable_stores_are_sound_witness :
  keys_fresh
    (POST_auth_signup (Fixture.signup "Tom" "tom@ecole.fr" "azerty3" "etudiant")
       no_rows).2 /\
  emails_distinct
    (POST_auth_signup (Fixture.signup "Tom" "tom@ecole.fr" "azerty3" "etudiant")
       no_rows).2 /\
  referential_integrity
    (POST_auth_signup (Fixture.signup "Tom" "tom@ecole.fr" "azerty3" "etudiant")
       no_rows).2.
Proof.
  apply reachable_stores_are_sound.
  apply (reach_request no_rows 0); [apply reach_no_rows | apply list_elem_of_here].
Defined.


Example js_length_counts_code_units :
  js_length "azerty3" = 7%nat /\ js_length "日本語" = 3%nat /\ js_length "😀" = 2%nat.
Proof. vm_compute. auto. Qed.

Example signup_three_character_password :
  POST_auth_signup (Fixture.signup "Aya" "aya@ecole.fr" "日本語" "etudiant") Fixture.store
  = (send 400 (Message (ZodError [{| issue_path := "password";
                                     issue_code := too_small |}])), Fixture.store).
Proof. vm_compute. reflexivity. Qed.

End OnFixture.
